(** * pyDTEPower: tariff tier matching and daily accumulation

    A shallow embedding of [calc_plans.py]: the [RateCondition], [PlanRate]
    and [PricePlan] dataclasses, the four configured price plans with their
    condition closures, and the per-meter loop of the script that fills in
    the daily cumulative usage and the per-plan rate and cost columns.

    Reading the CSV file, grouping the rows by account and meter, sorting
    each group by timestamp and writing the file back are left out: the
    model starts from the sorted readings of a meter.

    The script leans on two libraries, [decimal] and [arrow].  The parts of
    them the script calls are modelled first, following their documented
    behaviour. *)

From Stdlib Require Import ZArith QArith Qpower Lia Bool Sorted Permutation.
From stdpp Require Import base gmap strings list.

Local Open Scope Z_scope.

(** ** [decimal.Decimal] under the default context *)

Module Decimal.

(** A finite decimal: signed coefficient and exponent, the number
    [coef * 10 ^ dexp].  [Decimal('6.611')] is [{| coef := 6611; dexp := -3 |}].
    Special values (NaN, infinities) and the sign of a zero are not
    represented.  The operations below are those of the default context
    between its exponent limits, see [in_limits]: what the context does
    outside of them, raising [Overflow] or rounding a subnormal result, is
    left out. *)
Record t : Set := mk { coef : Z; dexp : Z }.

(** [getcontext().prec] of the default context. *)
Definition prec : Z := 28.

Fixpoint ndigits_aux (fuel : nat) (n : Z) : Z :=
  match fuel with
  | O => 1
  | S fuel' => if n <? 10 then 1 else 1 + ndigits_aux fuel' (n / 10)
  end.

(** [len(str(n))] for a non-negative [n]. *)
Definition ndigits (n : Z) : Z := ndigits_aux (Z.to_nat (Z.log2 n)) n.

(** ROUND_HALF_EVEN: drop the last [k] digits of the magnitude [n]. *)
Definition round_half_even (n k : Z) : Z :=
  let q := n / 10 ^ k in
  let r := n mod 10 ^ k in
  let half := 5 * 10 ^ (k - 1) in
  if (half <? r) || ((r =? half) && Z.odd q) then q + 1 else q.

(** [Decimal._fix]: round to [prec] significant digits. *)
Definition fix_ (d : t) : t :=
  let n := Z.abs (coef d) in
  let len := ndigits n in
  if len <=? prec then d
  else
    let k := len - prec in
    let m := round_half_even n k in
    if prec <? ndigits m
    then mk (Z.sgn (coef d) * (m / 10)) (dexp d + k + 1)
    else mk (Z.sgn (coef d) * m) (dexp d + k).

(** The exact sum, at the smaller of the two exponents. *)
Definition add_exact (a b : t) : t :=
  let e := Z.min (dexp a) (dexp b) in
  mk (coef a * 10 ^ (dexp a - e) + coef b * 10 ^ (dexp b - e)) e.

Definition mul_exact (a b : t) : t :=
  mk (coef a * coef b) (dexp a + dexp b).

(** [Decimal.__add__] and [Decimal.__mul__]: the exact result, rounded. *)
Definition add (a b : t) : t := fix_ (add_exact a b).
Definition mul (a b : t) : t := fix_ (mul_exact a b).

(** The loop of [__truediv__] that brings an exact quotient back towards
    the ideal exponent by dropping trailing zeros; it runs at most
    [ideal - e] times. *)
Fixpoint strip_zeros (n : nat) (c e : Z) : Z * Z :=
  match n with
  | O => (c, e)
  | S n' => if c mod 10 =? 0 then strip_zeros n' (c / 10) (e + 1) else (c, e)
  end.

(** [Decimal.__truediv__] for a non-zero divisor (the script only divides
    by the constant [Decimal('100.0')]). *)
Definition div (a b : t) : t :=
  let sign := Z.sgn (coef a) * Z.sgn (coef b) in
  let ideal := dexp a - dexp b in
  if coef a =? 0 then fix_ (mk 0 ideal)
  else
    let n1 := Z.abs (coef a) in
    let n2 := Z.abs (coef b) in
    let shift := ndigits n2 - ndigits n1 + prec + 1 in
    let e := ideal - shift in
    let num := if 0 <=? shift then n1 * 10 ^ shift else n1 in
    let den := if 0 <=? shift then n2 else n2 * 10 ^ (- shift) in
    let q := num / den in
    let r := num mod den in
    if r =? 0
    then let '(q', e') := strip_zeros (Z.to_nat (ideal - e)) q e in
         fix_ (mk (sign * q') e')
    else fix_ (mk (sign * (if q mod 5 =? 0 then q + 1 else q)) e).

(** Comparison is exact: both operands are brought to the same exponent. *)
Definition cmp (a b : t) : comparison :=
  let e := Z.min (dexp a) (dexp b) in
  (coef a * 10 ^ (dexp a - e)) ?= (coef b * 10 ^ (dexp b - e)).

Definition le (a b : t) : bool :=
  match cmp a b with Gt => false | _ => true end.
Definition gt (a b : t) : bool :=
  match cmp a b with Gt => true | _ => false end.
Definition eqb (a b : t) : bool :=
  match cmp a b with Eq => true | _ => false end.

(** [Decimal(n)] for an [int]. *)
Definition of_int (n : Z) : t := mk n 0.

(** The rational number a decimal stands for. *)
Definition val (d : t) : Q := (inject_Z (coef d) * (10 # 1) ^ dexp d)%Q.






End Decimal.

Abbreviation Decimal := Decimal.t.

(** ** [float]: the seconds of a timestamp *)

Module Float.

(** A double of magnitude [10 ^ -6] or more is a whole multiple of
    [2 ^ -72]: its mantissa has 53 bits and its binade is [-20] at least.
    The seconds of a timestamp other than the epoch itself are such
    doubles; they are kept as that multiple, so they are ordered as these
    integers are. *)
Definition scale : Z := 72.

(** [n / d] for [0 < d], rounded to the nearest integer, ties to the even
    one. *)
Definition div_half_even (n d : Z) : Z :=
  let q := n / d in
  let r := n mod d in
  if (d <? 2 * r) || ((2 * r =? d) && Z.odd q) then q + 1 else q.

(** The binade of [t / 10 ^ 6]: the [k] with
    [2 ^ k <= t / 10 ^ 6 < 2 ^ (k + 1)]. *)
Definition binade (t : Z) : Z :=
  let k0 := Z.log2 t - Z.log2 1000000 in
  if 1000000 * 2 ^ k0 <=? t then k0 else k0 - 1.

(** [x / 10 ** 6] for an [int] [0 < x]: the true division of two ints gives
    the nearest double, ties to the even mantissa.  [t] is [x] in units of
    [10 ^ -6 * 2 ^ -72], [ulp] the distance between two doubles of the
    binade of the quotient in units of [2 ^ -72], and the rounded quotient
    of [t] by [10 ^ 6 * ulp] the mantissa. *)
Definition of_micros_pos (x : Z) : Z :=
  let t := x * 2 ^ scale in
  let ulp := 2 ^ (binade t - 52) in
  ulp * div_half_even t (1000000 * ulp).

Definition of_micros (x : Z) : Z :=
  match x with
  | 0 => 0
  | Zpos _ => of_micros_pos x
  | Zneg _ => - of_micros_pos (- x)
  end.

End Float.

(** ** [arrow.Arrow] *)

Module Arrow.

(** A timestamp as its calendar fields.  Every timestamp of a run lives in
    the one zone the script passes to [arrow.get], 'America/Detroit'.  The
    zone's offset is taken as constant, its standard time, so instants are
    ordered as their wall-clock readings are; daylight-saving changes are
    not modelled. *)
Record t : Set := mk {
  year : Z; month : Z; day : Z;
  hour : Z; minute : Z; second : Z; microsecond : Z
}.

Definition is_leap (y : Z) : bool :=
  (y mod 4 =? 0) && (negb (y mod 100 =? 0) || (y mod 400 =? 0)).

Definition days_in_month (y m : Z) : Z :=
  match m with
  | 2 => if is_leap y then 29 else 28
  | 4 | 6 | 9 | 11 => 30
  | _ => 31
  end.

(** [datetime._days_before_year], [_days_before_month] and [_ymd2ord]. *)
Definition days_before_year (y : Z) : Z :=
  let y' := y - 1 in y' * 365 + y' / 4 - y' / 100 + y' / 400.

Definition days_before_month (y m : Z) : Z :=
  match m with
  | 1 => 0 | 2 => 31 | 3 => 59 | 4 => 90 | 5 => 120 | 6 => 151
  | 7 => 181 | 8 => 212 | 9 => 243 | 10 => 273 | 11 => 304 | _ => 334
  end + (if (2 <? m) && is_leap y then 1 else 0).

Definition toordinal (a : t) : Z :=
  days_before_year (year a) + days_before_month (year a) (month a) + day a.

(** Monday is 0, Sunday is 6. *)
Definition weekday (a : t) : Z := (toordinal a + 6) mod 7.

(** The wall-clock instant, in microseconds: the order of two [Arrow]
    objects, which [sorted] uses, is the order of these. *)
Definition timestamp (a : t) : Z :=
  (((toordinal a * 24 + hour a) * 60 + minute a) * 60 + second a) * 1000000
  + microsecond a.

(** [a.utcoffset()] in seconds: Eastern Standard Time. *)
Definition utc_offset : Z := -18000.

(** The microseconds of [a - EPOCH], the epoch being 1970-01-01 00:00 UTC,
    day 719163 of the calendar. *)
Definition epoch_micros (a : t) : Z :=
  timestamp a - 719163 * 86400 * 1000000 - utc_offset * 1000000.

(** [a.float_timestamp], which is [a._datetime.timestamp()], that is
    [(a - EPOCH).total_seconds()]: the microseconds divided by [10 ** 6]. *)
Definition float_timestamp (a : t) : Z := Float.of_micros (epoch_micros a).

(** A timestamp [arrow.get(..., 'MM/DD/YYYY h:mm A')] can produce, in the
    years 1500 to 2500: there the floating-point seconds that [is_between]
    compares still tell a whole second from the microsecond before it, and
    [shift(years=+1)] stays in range. *)
Definition valid (a : t) : bool :=
  (1500 <=? year a) && (year a <=? 2500) &&
  (1 <=? month a) && (month a <=? 12) &&
  (1 <=? day a) && (day a <=? days_in_month (year a) (month a)) &&
  (0 <=? hour a) && (hour a <=? 23) &&
  (0 <=? minute a) && (minute a <=? 59) &&
  (0 <=? second a) && (second a <=? 59) &&
  (0 <=? microsecond a) && (microsecond a <=? 999999).

(** [a.floor('day')], [a.ceil('day')], [a.ceil('hour')]. *)
Definition floor_day (a : t) : t :=
  mk (year a) (month a) (day a) 0 0 0 0.
Definition ceil_day (a : t) : t :=
  mk (year a) (month a) (day a) 23 59 59 999999.
Definition ceil_hour (a : t) : t :=
  mk (year a) (month a) (day a) (hour a) 59 59 999999.

(** [a.replace(month=m, day=d)] and [a.replace(hour=h)]: the other fields,
    the time of day among them, stay as they are. *)
Definition replace_month_day (m d : Z) (a : t) : t :=
  mk (year a) m d (hour a) (minute a) (second a) (microsecond a).
Definition replace_hour (h : Z) (a : t) : t :=
  mk (year a) (month a) (day a) h (minute a) (second a) (microsecond a).

(** [a.shift(years=n)]: a day past the end of the target month is clamped. *)
Definition shift_years (n : Z) (a : t) : t :=
  mk (year a + n) (month a)
     (Z.min (day a) (days_in_month (year a + n) (month a)))
     (hour a) (minute a) (second a) (microsecond a).

(** [a.is_between(start, end, bounds='[]')]: arrow compares the three
    [float_timestamp]s, [start_ts <= target_ts <= end_ts]. *)
Definition is_between (a start end_ : t) : bool :=
  (float_timestamp start <=? float_timestamp a)
  && (float_timestamp a <=? float_timestamp end_).

(** The fields of a [datetime]. *)
Definition well_formed (a : t) : bool :=
  (1 <=? year a) && (year a <=? 9999) &&
  (1 <=? month a) && (month a <=? 12) &&
  (1 <=? day a) && (day a <=? days_in_month (year a) (month a)) &&
  (0 <=? hour a) && (hour a <=? 23) &&
  (0 <=? minute a) && (minute a <=? 59) &&
  (0 <=? second a) && (second a <=? 59) &&
  (0 <=? microsecond a) && (microsecond a <=? 999999).

(** Fewer than [2 ** 34 - 1] seconds away from the epoch, which is from
    August 1425 to May 2514: the doubles of these binades lie less than two
    microseconds apart. *)
Definition near_epoch (a : t) : bool :=
  Z.abs (epoch_micros a) <? (2 ^ 34 - 1) * 1000000.

(** The time of day is zero: the timestamp is its own [floor('day')]. *)
Definition midnight (a : t) : bool :=
  (hour a =? 0) && (minute a =? 0) && (second a =? 0) && (microsecond a =? 0).

(** [a.date()] and the order of [datetime.date]. *)
Definition date (a : t) : Z * Z * Z := (year a, month a, day a).

Definition date_gt (d1 d2 : Z * Z * Z) : bool :=
  let '(y1, m1, n1) := d1 in
  let '(y2, m2, n2) := d2 in
  (y2 <? y1) || ((y1 =? y2) && ((m2 <? m1) || ((m1 =? m2) && (n2 <? n1)))).

End Arrow.

(** ** Rows, diagnostics and exceptions *)

(** A value the script stores in a plan column of a row. *)
Inductive Value : Type :=
| VStr (s : string)
| VDec (d : Decimal).

(** A reading as the loading loop leaves it: the CSV fields, with
    ['Timestamp'] parsed and ['Hourly Total'] as the decimal that
    [Decimal(row['Hourly Total'])] yields. *)
Record Reading : Type := mkReading {
  rd_account : string;
  rd_meter : string;
  rd_timestamp : Arrow.t;
  rd_hourly_total : Decimal
}.

(** The row dict once ['Daily Cumulative'] is set: the keys the conditions
    and the cost read are fields, the ['<plan> Rate'] and ['<plan> Cost']
    keys the script adds afterwards are kept in a map. *)
Record Row : Type := mkRow {
  Account_Number : string;
  Meter_Number : string;
  Timestamp : Arrow.t;
  Hourly_Total : Decimal;
  Daily_Cumulative : Decimal;
  columns : gmap string Value
}.

(** [row[key] = v] for a plan column. *)
Definition set_column (key : string) (v : Value) (row : Row) : Row :=
  mkRow (Account_Number row) (Meter_Number row) (Timestamp row)
        (Hourly_Total row) (Daily_Cumulative row) (<[key := v]> (columns row)).

(** The lines the script prints. *)
Inductive Event : Type :=
| CouldNotFindRate (plan : string) (row : Row)
    (** stderr: [f'{self.name}: Could not find rate for {row}!'] *)
| NoMatchFor (key condition : string)
    (** stdout: [f'No match for {self.key}: {self.condition}'] *).

Inductive Exn : Set := AttributeError | IndexError.

(** A method that prints: its value and the lines printed, in order. *)
Definition Out (A : Type) : Type := A * list Event.

Definition ret {A} (a : A) : Out A := (a, []).
Definition tell (e : Event) : Out unit := (tt, [e]).
Definition bind {A B} (m : Out A) (k : A -> Out B) : Out B :=
  let '(a, o1) := m in let '(b, o2) := k a in (b, o1 ++ o2).

(** A statement of the script: it prints, and ends normally or raises. *)
Inductive Res (A : Type) : Type :=
| Ok (a : A)
| Raise (e : Exn).
Arguments Ok {A} a.
Arguments Raise {A} e.

Definition Py (A : Type) : Type := Res A * list Event.

Definition ok {A} (a : A) : Py A := (Ok a, []).
Definition raise {A} (e : Exn) : Py A := (Raise e, []).
Definition lift {A} (m : Out A) : Py A := (Ok (fst m), snd m).
Definition pbind {A B} (m : Py A) (k : A -> Py B) : Py B :=
  match m with
  | (Ok a, o1) => let '(r, o2) := k a in (r, o1 ++ o2)
  | (Raise e, o1) => (Raise e, o1)
  end.

Declare Scope out_scope.
Delimit Scope out_scope with out.
Notation "x <- m ;; k" := (bind m (fun x => k))
  (at level 100, m at next level, right associativity) : out_scope.
Declare Scope py_scope.
Delimit Scope py_scope with py.
Notation "x <- m ;; k" := (pbind m (fun x => k))
  (at level 100, m at next level, right associativity) : py_scope.

(** ** The dataclasses *)

Module RateCondition.

Record t : Type := mk {
  key : string;              (* key to check *)
  condition : string;        (* condition to check *)
  match_ : Row -> bool       (* function to match this rate *)
}.

Definition is_rate (self : t) (row : Row) (debug : bool) : Out bool :=
  let val := match_ self row in
  (_ <- (if debug && negb val
         then tell (NoMatchFor (key self) (condition self))
         else ret tt) ;;
   ret val)%out.

End RateCondition.

Module PlanRate.

Record t : Type := mk {
  name : string;                        (* rate name (e.g. First 17kWh) *)
  distribution : Decimal;               (* distribution charge per kWh in cents *)
  capacity : Decimal;                   (* capacity charge per kWh in cents *)
  non_capacity : Decimal;               (* non_capacity charge per kWh in cents *)
  conditions : list RateCondition.t     (* conditions to match this rate *)
}.

(** The [for condition in self.conditions] loop. *)
Fixpoint all_conditions (conds : list RateCondition.t) (row : Row)
         (debug : bool) : Out bool :=
  match conds with
  | [] => ret true
  | c :: rest =>
      (v <- RateCondition.is_rate c row debug ;;
       if negb v then ret false else all_conditions rest row debug)%out
  end.

Definition is_rate (self : t) (row : Row) (debug : bool) : Out bool :=
  all_conditions (conditions self) row debug.

Definition cost (self : t) (row : Row) : Out Decimal :=
  (applies <- is_rate self row false ;;
   if negb applies then ret (Decimal.mk 0 (-1))
   else ret (Decimal.div
               (Decimal.mul (Hourly_Total row)
                  (Decimal.add
                     (Decimal.add (distribution self) (capacity self))
                     (non_capacity self)))
               (Decimal.mk 1000 (-1))))%out.

End PlanRate.

Module PricePlan.

Record t : Type := mk {
  name : string;                (* plan name (e.g. D1) *)
  rates : list PlanRate.t;      (* one or more rates *)
  service_charge : Decimal      (* per-month *)
}.

(** The first loop of [match_rate]. *)
Fixpoint first_rate (rs : list PlanRate.t) (row : Row) : Out (option PlanRate.t) :=
  match rs with
  | [] => ret None
  | rate :: rest =>
      (applies <- PlanRate.is_rate rate row false ;;
       if applies then ret (Some rate) else first_rate rest row)%out
  end.

(** The second loop of [match_rate], run for its printing only. *)
Fixpoint explain (rs : list PlanRate.t) (row : Row) : Out unit :=
  match rs with
  | [] => ret tt
  | rate :: rest =>
      (_ <- PlanRate.is_rate rate row true ;; explain rest row)%out
  end.

Definition match_rate (self : t) (row : Row) : Out (option PlanRate.t) :=
  (found <- first_rate (rates self) row ;;
   match found with
   | Some rate => ret (Some rate)
   | None =>
       _ <- tell (CouldNotFindRate (name self) row) ;;
       _ <- explain (rates self) row ;;
       ret None
   end)%out.

Definition cost (self : t) (row : Row) : Out Decimal :=
  (rate <- match_rate self row ;;
   match rate with
   | None => ret (Decimal.mk 0 (-1))
   | Some r => PlanRate.cost r row
   end)%out.


End PricePlan.

(** ** The configured plans *)

Local Open Scope string_scope.
Local Open Scope Z_scope.

Definition D (c e : Z) : Decimal := Decimal.mk c e.

(** [row['Timestamp'].is_between(row['Timestamp'].clone().replace(hour=h1),
    row['Timestamp'].clone().replace(hour=h2).ceil('hour'), bounds='[]')] *)
Definition hour_between (h1 h2 : Z) (row : Row) : bool :=
  Arrow.is_between (Timestamp row)
    (Arrow.replace_hour h1 (Timestamp row))
    (Arrow.ceil_hour (Arrow.replace_hour h2 (Timestamp row))).

(** The closure of the ['06/01 <= day <= 10/31'] conditions. *)
Definition summer_days (row : Row) : bool :=
  Arrow.is_between (Arrow.floor_day (Timestamp row))
    (Arrow.replace_month_day 6 1 (Timestamp row))
    (Arrow.ceil_day (Arrow.replace_month_day 10 31 (Timestamp row))).

(** The closure of the ['11/01 <= day <= 5/31'] conditions. *)
Definition winter_days (row : Row) : bool :=
  Arrow.is_between (Arrow.floor_day (Timestamp row))
    (Arrow.replace_month_day 11 1 (Timestamp row))
    (Arrow.ceil_day
       (Arrow.shift_years 1 (Arrow.replace_month_day 5 31 (Timestamp row)))).

(** The closure of the ['19:00:00 <= hour <= 10:59:59'] conditions. *)
Definition off_peak_hours (row : Row) : bool :=
  hour_between 19 23 row || hour_between 0 10 row.

(** [lo <= row['Timestamp'].weekday() <= hi] *)
Definition weekday_between (lo hi : Z) (row : Row) : bool :=
  (lo <=? Arrow.weekday (Timestamp row)) && (Arrow.weekday (Timestamp row) <=? hi).

Definition le_17 (row : Row) : bool :=
  Decimal.le (Daily_Cumulative row) (Decimal.of_int 17).
Definition gt_17 (row : Row) : bool :=
  Decimal.gt (Daily_Cumulative row) (Decimal.of_int 17).

Definition cond_summer : RateCondition.t :=
  RateCondition.mk "Timestamp" "06/01 <= day <= 10/31" summer_days.
Definition cond_winter : RateCondition.t :=
  RateCondition.mk "Timestamp" "11/01 <= day <= 5/31" winter_days.
Definition cond_off_peak : RateCondition.t :=
  RateCondition.mk "Timestamp" "19:00:00 <= hour <= 10:59:59" off_peak_hours.
Definition cond_on_peak : RateCondition.t :=
  RateCondition.mk "Timestamp" "11:00:00 <= hour <= 18:59:59" (hour_between 11 18).
Definition cond_weekdays : RateCondition.t :=
  RateCondition.mk "Timestamp" "Monday <= day <= Friday" (weekday_between 0 4).
Definition cond_weekend : RateCondition.t :=
  RateCondition.mk "Timestamp" "Saturday <= day <= Sunday" (weekday_between 5 6).

(** D1 residential pricing *)
Definition plan_D1 : PricePlan.t :=
  PricePlan.mk "D1"
    [ PlanRate.mk "First 17kWh" (D 6611 (-3)) (D 4500 (-3)) (D 4176 (-3))
        [ RateCondition.mk "Daily Cumulative" "<=17" le_17 ];
      PlanRate.mk "After 17kWh" (D 6611 (-3)) (D 6484 (-3)) (D 4176 (-3))
        [ RateCondition.mk "Daily Cumulative" ">17" gt_17 ] ]
    (D 750 (-2)).

(** D1.2 Time of Day *)
Definition plan_D1_2 : PricePlan.t :=
  PricePlan.mk "D1.2"
    [ PlanRate.mk "Time-of-Day Summer Off-Peak"
        (D 6611 (-3)) (D 1160 (-3)) (D 4261 (-3)) [ cond_summer; cond_off_peak ];
      PlanRate.mk "Time-of-Day Summer On-Peak"
        (D 6611 (-3)) (D 11841 (-3)) (D 4261 (-3)) [ cond_summer; cond_on_peak ];
      PlanRate.mk "Time-of-Day Winter Off-Peak"
        (D 6611 (-3)) (D 948 (-3)) (D 4261 (-3)) [ cond_winter; cond_off_peak ];
      PlanRate.mk "Time-of-Day Winter On-Peak"
        (D 6611 (-3)) (D 9341 (-3)) (D 4261 (-3)) [ cond_winter; cond_on_peak ] ]
    (D 750 (-2)).

(** D1.9 Dynamic Time-of-Day *)
Definition plan_D1_9 : PricePlan.t :=
  PricePlan.mk "D1.9"
    [ PlanRate.mk "Dynamic Mid-Peak"
        (D 6611 (-3)) (D 5645 (-3)) (D 3576 (-3))
        [ cond_weekdays;
          RateCondition.mk "Timestamp"
            "19:00:00 <= hour <= 22:59:59 or 07:00:00 <= hour <= 14:59:59"
            (fun row => hour_between 19 22 row || hour_between 7 14 row) ];
      PlanRate.mk "Dynamic On-Peak"
        (D 6611 (-3)) (D 13025 (-3)) (D 3576 (-3))
        [ cond_weekdays;
          RateCondition.mk "Timestamp" "15:00:00 <= hour <= 18:59:59"
            (hour_between 15 18) ];
      PlanRate.mk "Dynamic Off-Peak Weekday"
        (D 6611 (-3)) (D 1218 (-3)) (D 3576 (-3))
        [ cond_weekdays;
          RateCondition.mk "Timestamp" "23:00:00 <= hour <= 06:59:59"
            (fun row => hour_between 23 23 row || hour_between 0 6 row) ];
      PlanRate.mk "Dynamic Off-Peak Weekend"
        (D 6611 (-3)) (D 1218 (-3)) (D 3576 (-3)) [ cond_weekend ] ]
    (D 750 (-2)).

(** D1.8 EV Dedicated Meter *)
Definition plan_D1_8 : PricePlan.t :=
  PricePlan.mk "D1.8"
    [ PlanRate.mk "EV On-Peak"
        (D 6611 (-3)) (D 9791 (-3)) (D 19720 (-3))
        [ cond_weekdays;
          RateCondition.mk "Timestamp" "09:00:00 <= hour <= 22:59:59"
            (hour_between 9 22) ];
      PlanRate.mk "EV Off-Peak Weekday"
        (D 6611 (-3)) (D 2448 (-3)) (D 7889 (-3))
        [ cond_weekdays;
          RateCondition.mk "Timestamp" "23:00:00 <= hour <= 08:59:59"
            (fun row => hour_between 23 23 row || hour_between 0 8 row) ];
      PlanRate.mk "EV Off-Peak Weekend"
        (D 6611 (-3)) (D 2448 (-3)) (D 7889 (-3)) [ cond_weekend ] ]
    (D 195 (-2)).

Definition plans : list PricePlan.t := [ plan_D1; plan_D1_2; plan_D1_9; plan_D1_8 ].

(** ** The per-meter loop of the script *)

(** [Decimal('0.0')] and [Decimal('100.0')]. *)
Definition zero : Decimal := D 0 (-1).

(** The body of [for plan in plans]: the rate column is the [name] of what
    [match_rate] returns, then [cost] is called on the row that already
    holds the rate column. *)
Definition annotate (plan : PricePlan.t) (row : Row) : Py Row :=
  (rate <- lift (PricePlan.match_rate plan row) ;;
   rate_name <- match rate with
                | Some r => ok (PlanRate.name r)
                | None => raise AttributeError
                end ;;
   let row1 := set_column (PricePlan.name plan +:+ " Rate") (VStr rate_name) row in
   c <- lift (PricePlan.cost plan row1) ;;
   ok (set_column (PricePlan.name plan +:+ " Cost") (VDec c) row1))%py.

Fixpoint annotate_all (ps : list PricePlan.t) (row : Row) : Py Row :=
  match ps with
  | [] => ok row
  | plan :: rest => (row1 <- annotate plan row ;; annotate_all rest row1)%py
  end.

(** One pass of [for idx in range(len(data[acct][meter]))] with the loop
    variables [ts] and [day_tally]. *)
Definition next_tally (ts : Z * Z * Z) (day_tally : Decimal) (r : Reading)
  : (Z * Z * Z) * Decimal :=
  let '(ts1, tally1) :=
    if Arrow.date_gt (Arrow.date (rd_timestamp r)) ts
    then (Arrow.date (rd_timestamp r), zero)
    else (ts, day_tally) in
  (ts1, Decimal.add tally1 (rd_hourly_total r)).

Fixpoint meter_loop (ps : list PricePlan.t) (ts : Z * Z * Z) (day_tally : Decimal)
         (rs : list Reading) : Py (list Row) :=
  match rs with
  | [] => ok []
  | r :: rest =>
      let '(ts1, cumulative) := next_tally ts day_tally r in
      let row := mkRow (rd_account r) (rd_meter r) (rd_timestamp r)
                       (rd_hourly_total r) cumulative ∅ in
      (row1 <- annotate_all ps row ;;
       rows <- meter_loop ps ts1 cumulative rest ;;
       ok (row1 :: rows))%py
  end.

(** Lines 430-444 for one sorted [data[acct][meter]]. *)
Definition process_meter (ps : list PricePlan.t) (rs : list Reading) : Py (list Row) :=
  match rs with
  | [] => raise IndexError
  | first :: _ => meter_loop ps (Arrow.date (rd_timestamp first)) zero rs
  end.

(** The meters one after the other. *)
Fixpoint process_all (ps : list PricePlan.t) (groups : list (list Reading))
  : Py (list (list Row)) :=
  match groups with
  | [] => ok []
  | g :: rest =>
      (rows <- process_meter ps g ;;
       others <- process_all ps rest ;;
       ok (rows :: others))%py
  end.

(** The daily tally alone (lines 430-438): the cumulative values the loop
    assigns, in order. *)
Fixpoint tally_loop (ts : Z * Z * Z) (day_tally : Decimal) (rs : list Reading)
  : list Decimal :=
  match rs with
  | [] => []
  | r :: rest =>
      let '(ts1, cumulative) := next_tally ts day_tally r in
      cumulative :: tally_loop ts1 cumulative rest
  end.

Definition daily_cumulative (rs : list Reading) : list Decimal :=
  match rs with
  | [] => []
  | first :: _ => tally_loop (Arrow.date (rd_timestamp first)) zero rs
  end.

(** ** The accumulator as the specification words it *)

Record AccState : Type := mkAcc {
  current_date : Z * Z * Z;
  running_total : Decimal;
  assigned : list Decimal      (* the cumulative values given out so far *)
}.

Definition spec_step (st : AccState) (r : Reading) : AccState :=
  let d := Arrow.date (rd_timestamp r) in
  let st1 := if Arrow.date_gt d (current_date st)
             then mkAcc d zero (assigned st)
             else st in
  let total := Decimal.add (running_total st1) (rd_hourly_total r) in
  mkAcc (current_date st1) total (assigned st1 ++ [total]).

Definition spec_accumulate (rs : list Reading) : list Decimal :=
  match rs with
  | [] => []
  | first :: _ =>
      assigned (fold_left spec_step rs
                  (mkAcc (Arrow.date (rd_timestamp first)) zero []))
  end.

(** A reading of meter ["M"] at [mo]/[d]/[y], [h]:[mi], for sample runs. *)
Definition reading_at (y mo d h mi : Z) (usage : Decimal) : Reading :=
  mkReading "A" "M" (Arrow.mk y mo d h mi 0 0) usage.

(** A row with the given timestamp and cumulative usage, before any plan
    column is set. *)
Definition row_at (ts : Arrow.t) (usage cumulative : Decimal) : Row :=
  mkRow "A" "M" ts usage cumulative ∅.

(** The same reading with other plan columns. *)
Definition with_columns (cols : gmap string Value) (row : Row) : Row :=
  mkRow (Account_Number row) (Meter_Number row) (Timestamp row)
        (Hourly_Total row) (Daily_Cumulative row) cols.

(** A condition whose closure looks at the reading only, not at the plan
    columns the script adds to the row. *)
Definition ignores_columns (c : RateCondition.t) : Prop :=
  forall row cols,
    RateCondition.match_ c (with_columns cols row) = RateCondition.match_ c row.

Definition plan_ignores_columns (plan : PricePlan.t) : Prop :=
  Forall (fun rate => Forall ignores_columns (PlanRate.conditions rate))
         (PricePlan.rates plan).

(** The keys of the columns the script adds for a list of plans. *)
Definition column_keys (ps : list PricePlan.t) : list string :=
  flat_map (fun plan => [PricePlan.name plan +:+ " Rate";
                         PricePlan.name plan +:+ " Cost"]) ps.

(** ** Sample data *)

(** The first tier of D1. *)
Definition first_17 : PlanRate.t :=
  PlanRate.mk "First 17kWh" (D 6611 (-3)) (D 4500 (-3)) (D 4176 (-3))
    [ RateCondition.mk "Daily Cumulative" "<=17" le_17 ].

(** Noon of July 1, 2021, a Thursday. *)
Definition july_noon : Arrow.t := Arrow.mk 2021 7 1 12 0 0 0.

(** A reading of 2.5 kWh, the first of its day. *)
Definition row_2_5 : Row := row_at july_noon (D 25 (-1)) (D 25 (-1)).


(** Two tiers with the same condition: both apply up to 17 kWh. *)
Definition overlap_plan : PricePlan.t :=
  PricePlan.mk "Overlap"
    [ first_17;
      PlanRate.mk "Second" (D 6611 (-3)) (D 6484 (-3)) (D 4176 (-3))
        [ RateCondition.mk "Daily Cumulative" "<=17" le_17 ] ]
    (D 750 (-2)).

(** Midnight of March 1, 2022, a reading of 2.5 kWh. *)
Definition march_reading : Reading := reading_at 2022 3 1 0 0 (D 25 (-1)).
Definition march_row : Row := row_at (Arrow.mk 2022 3 1 0 0 0 0) (D 25 (-1)) (D 25 (-1)).

(** Two readings on one day and one on the next. *)
Definition three_readings : list Reading :=
  [ reading_at 2021 7 1 0 0 (D 10 0);
    reading_at 2021 7 1 1 0 (D 5 0);
    reading_at 2021 7 2 0 0 (D 3 0) ].

(** ** Loading, grouping, sorting and writing *)

(** A Python [dict] with string keys: the items in insertion order. *)
Definition Dict (V : Type) : Type := list (string * V).

(** [d.get(key)]: [None] for a missing key. *)
Fixpoint dict_get {V} (key : string) (d : Dict V) : option V :=
  match d with
  | [] => None
  | (k, v) :: rest => if String.eqb k key then Some v else dict_get key rest
  end.

(** [key in d]. *)
Definition dict_mem {V} (key : string) (d : Dict V) : bool :=
  match dict_get key d with Some _ => true | None => false end.

(** [d[key] = v]: a key already present keeps its place, a new key goes
    last. *)
Fixpoint dict_set {V} (key : string) (v : V) (d : Dict V) : Dict V :=
  match d with
  | [] => [(key, v)]
  | (k, v0) :: rest =>
      if String.eqb k key then (k, v) :: rest else (k, v0) :: dict_set key v rest
  end.

(** The body of the loop over the CSV rows (lines 413-423), on a row whose
    timestamp is parsed already.  The inner dict and the list are changed in
    place in the script; here they are written back. *)
Definition load_step (data : Dict (Dict (list Reading))) (r : Reading)
  : Dict (Dict (list Reading)) :=
  let acct := rd_account r in
  let meter := rd_meter r in
  let data1 := if dict_mem acct data then data else dict_set acct [] data in
  let meters := default [] (dict_get acct data1) in
  let meters1 := if dict_mem meter meters then meters else dict_set meter [] meters in
  let readings := default [] (dict_get meter meters1) in
  dict_set acct (dict_set meter (readings ++ [r])%list meters1) data1.

Definition load (rs : list Reading) : Dict (Dict (list Reading)) :=
  fold_left load_step rs [].

(** [data[acct][meter]], when both keys are there. *)
Definition group_of (acct meter : string) (data : Dict (Dict (list Reading)))
  : option (list Reading) :=
  match dict_get acct data with
  | Some meters => dict_get meter meters
  | None => None
  end.

(** The lists [for acct in data: for meter in data[acct]] visits, in order. *)
Definition groups (data : Dict (Dict (list Reading))) : list (list Reading) :=
  flat_map (fun item => map snd (snd item)) data.

(** [sorted(..., key=lambda d: d['Timestamp'])], a stable sort: a reading
    goes in front of the first one that is not earlier than it. *)
Fixpoint insert_sorted (r : Reading) (rs : list Reading) : list Reading :=
  match rs with
  | [] => [r]
  | x :: rest =>
      if Arrow.timestamp (rd_timestamp x) <? Arrow.timestamp (rd_timestamp r)
      then x :: insert_sorted r rest
      else r :: x :: rest
  end.

Definition sorted_by_timestamp (rs : list Reading) : list Reading :=
  fold_right insert_sorted [] rs.

(** Lines 411-444: load, then sort and process each meter in turn. *)
Definition run (ps : list PricePlan.t) (rs : list Reading) : Py (list (list Row)) :=
  process_all ps (map sorted_by_timestamp (groups (load rs))).

(** The [fieldnames] of the writer (lines 447-451). *)
Definition fieldnames (ps : list PricePlan.t) : list string :=
  ([ "Account Number"; "Meter Number"; "Day"; "Hour of Day"; "Timestamp";
     "Hourly Total"; "Daily Cumulative"; "Daily Total"; "Unit of Measurement" ]
   ++ column_keys ps)%list.

(** The reading a row was made from. *)
Definition reading_of (row : Row) : Reading :=
  mkReading (Account_Number row) (Meter_Number row) (Timestamp row) (Hourly_Total row).

(** ** Auxiliary notions for the properties *)

Definition date_eqb (d1 d2 : Z * Z * Z) : bool :=
  let '(y1, m1, n1) := d1 in
  let '(y2, m2, n2) := d2 in
  (y1 =? y2) && (m1 =? m2) && (n1 =? n2).

(** The tally that restarts whenever the date of a reading differs from the
    date of the reading before it. *)
Fixpoint tally_by_change (prev : Z * Z * Z) (day_tally : Decimal)
         (rs : list Reading) : list Decimal :=
  match rs with
  | [] => []
  | r :: rest =>
      let d := Arrow.date (rd_timestamp r) in
      let cumulative :=
        Decimal.add (if date_eqb d prev then day_tally else zero)
                    (rd_hourly_total r) in
      cumulative :: tally_by_change d cumulative rest
  end.

(** Readings in chronological order. *)
Definition chronological (rs : list Reading) : Prop :=
  StronglySorted
    (fun a b => Arrow.timestamp (rd_timestamp a) <= Arrow.timestamp (rd_timestamp b)) rs.

(** The first condition of a tier that fails for a row. *)
Fixpoint first_failing (conds : list RateCondition.t) (row : Row)
  : option RateCondition.t :=
  match conds with
  | [] => None
  | c :: rest =>
      if RateCondition.match_ c row then first_failing rest row else Some c
  end.



(** The keys of the dicts are distinct, at both levels. *)
Definition keys_distinct (data : Dict (Dict (list Reading))) : Prop :=
  List.NoDup (map fst data)
  /\ Forall (fun item => List.NoDup (map fst (snd item))) data.

Local Close Scope string_scope.

(** * Properties *)

(** ** Decimal arithmetic *)

Section DecimalFacts.

Import Decimal.








End DecimalFacts.

(** ** What decimals stand for *)

Section DecimalValue.

Import Decimal.
Local Open Scope Q_scope.

Lemma ten_nonzero : ~ (10 # 1) == 0.
Proof. unfold Qeq; simpl; lia. Qed.

Lemma ten_pow_pos e : 0 < (10 # 1) ^ e.
Proof. apply Qpower_0_lt. reflexivity. Qed.

Lemma ten_pow_plus a b : (10 # 1) ^ (a + b) == (10 # 1) ^ a * (10 # 1) ^ b.
Proof. apply Qpower_plus, ten_nonzero. Qed.

Lemma ten_pow_inject k : (0 <= k)%Z -> inject_Z (10 ^ k) == (10 # 1) ^ k.
Proof. intros Hk. apply (Zpower_Qpower 10 k Hk). Qed.

(** Moving [k] powers of ten from the exponent into the coefficient keeps
    the value. *)
Lemma val_scale c e k :
  (0 <= k)%Z -> val (mk (c * 10 ^ k) (e - k)) == val (mk c e).
Proof.
  intros Hk. unfold val; simpl.
  rewrite inject_Z_mult, (ten_pow_inject k Hk).
  replace e with ((e - k) + k)%Z at 2 by lia.
  rewrite ten_pow_plus. ring.
Qed.

Lemma val_of_int n : val (of_int n) == inject_Z n.
Proof. unfold val; simpl. ring. Qed.



Lemma Qcompare_scaled x y p :
  0 < p -> (inject_Z x * p ?= inject_Z y * p) = (x ?= y)%Z.
Proof.
  intros Hp. destruct (Z.compare_spec x y) as [->|Hlt|Hgt].
  - apply Qeq_alt. reflexivity.
  - apply Qlt_alt. apply Qmult_lt_r; [done|]. by rewrite <- Zlt_Qlt.
  - apply Qgt_alt. apply Qmult_lt_r; [done|]. by rewrite <- Zlt_Qlt.
Qed.

(** Comparison of decimals is comparison of the numbers they stand for. *)
Lemma cmp_val a b : cmp a b = (val a ?= val b).
Proof.
  unfold cmp.
  set (e := Z.min (dexp a) (dexp b)).
  assert (Ha : val a == inject_Z (coef a * 10 ^ (dexp a - e)) * (10 # 1) ^ e).
  { rewrite <- (val_scale (coef a) (dexp a) (dexp a - e)) by lia.
    replace (dexp a - (dexp a - e))%Z with e by lia. reflexivity. }
  assert (Hb : val b == inject_Z (coef b * 10 ^ (dexp b - e)) * (10 # 1) ^ e).
  { rewrite <- (val_scale (coef b) (dexp b) (dexp b - e)) by lia.
    replace (dexp b - (dexp b - e))%Z with e by lia. reflexivity. }
  rewrite Ha, Hb. symmetry. apply Qcompare_scaled, ten_pow_pos.
Qed.

Lemma le_val a b : le a b = true <-> val a <= val b.
Proof.
  unfold le. rewrite cmp_val, Qle_alt.
  destruct (val a ?= val b); split; intros; congruence.
Qed.

Lemma gt_val a b : gt a b = true <-> val b < val a.
Proof.
  unfold gt. rewrite cmp_val, Qgt_alt.
  destruct (val a ?= val b); split; intros; congruence.
Qed.



End DecimalValue.

(** ** Division by [Decimal('100.0')] *)

Section DecimalDivision.

Import Decimal.




End DecimalDivision.

(** ** The printing methods *)

Section Methods.

Lemma bind_fst {A B} (m : Out A) (k : A -> Out B) :
  fst (bind m k) = fst (k (fst m)).
Proof. destruct m as [a o]; simpl. by destruct (k a). Qed.

Lemma bind_snd {A B} (m : Out A) (k : A -> Out B) :
  snd (bind m k) = snd m ++ snd (k (fst m)).
Proof. destruct m as [a o]; simpl. by destruct (k a). Qed.

Lemma out_eta {A} (m : Out A) : m = (fst m, snd m).
Proof. by destruct m. Qed.

(** A condition evaluates its closure; it prints only when asked to and
    only when the closure says no. *)
Lemma condition_is_rate c row debug :
  RateCondition.is_rate c row debug =
  (RateCondition.match_ c row,
   if debug && negb (RateCondition.match_ c row)
   then [NoMatchFor (RateCondition.key c) (RateCondition.condition c)]
   else []).
Proof.
  unfold RateCondition.is_rate.
  destruct debug, (RateCondition.match_ c row); reflexivity.
Qed.

(** A rate applies when all of its conditions do. *)
Lemma all_conditions_fst conds row debug :
  fst (PlanRate.all_conditions conds row debug)
  = forallb (fun c => RateCondition.match_ c row) conds.
Proof.
  induction conds as [|c rest IH]; [done|]. cbn [PlanRate.all_conditions].
  rewrite bind_fst, condition_is_rate. simpl.
  destruct (RateCondition.match_ c row); simpl; [exact IH | done].
Qed.

Lemma all_conditions_quiet conds row :
  snd (PlanRate.all_conditions conds row false) = [].
Proof.
  induction conds as [|c rest IH]; [done|]. cbn [PlanRate.all_conditions].
  rewrite bind_snd, condition_is_rate. simpl.
  destruct (RateCondition.match_ c row); simpl; [exact IH | done].
Qed.

Lemma rate_is_rate_quiet rate row :
  PlanRate.is_rate rate row false
  = (forallb (fun c => RateCondition.match_ c row) (PlanRate.conditions rate), []).
Proof.
  unfold PlanRate.is_rate.
  rewrite (out_eta (PlanRate.all_conditions _ _ _)).
  by rewrite all_conditions_fst, all_conditions_quiet.
Qed.

Lemma rate_is_rate_true rate row :
  fst (PlanRate.is_rate rate row false) = true <->
  Forall (fun c => RateCondition.match_ c row = true) (PlanRate.conditions rate).
Proof.
  rewrite rate_is_rate_quiet; simpl.
  rewrite forallb_forall, Forall_forall.
  split; intros H c Hc; apply H; by apply list_elem_of_In.
Qed.

(** The first loop of [match_rate] prints nothing. *)
Lemma first_rate_quiet rs row : snd (PricePlan.first_rate rs row) = [].
Proof.
  induction rs as [|rate rest IH]; [done|]. cbn [PricePlan.first_rate].
  rewrite bind_snd, rate_is_rate_quiet; simpl.
  by destruct (forallb _ _).
Qed.

Lemma first_rate_cons rate rest row :
  fst (PricePlan.first_rate (rate :: rest) row)
  = if fst (PlanRate.is_rate rate row false) then Some rate
    else fst (PricePlan.first_rate rest row).
Proof.
  cbn [PricePlan.first_rate]. rewrite bind_fst.
  by destruct (fst (PlanRate.is_rate rate row false)).
Qed.

Lemma match_rate_fst plan row :
  fst (PricePlan.match_rate plan row)
  = fst (PricePlan.first_rate (PricePlan.rates plan) row).
Proof.
  unfold PricePlan.match_rate. rewrite bind_fst.
  destruct (fst (PricePlan.first_rate _ _)); [done|].
  by rewrite !bind_fst.
Qed.

(** A match is silent. *)
Lemma match_rate_some plan row rate :
  fst (PricePlan.match_rate plan row) = Some rate ->
  PricePlan.match_rate plan row = (Some rate, []).
Proof.
  intros H. rewrite (out_eta (PricePlan.match_rate plan row)), H. f_equal.
  rewrite match_rate_fst in H.
  unfold PricePlan.match_rate. rewrite bind_snd, first_rate_quiet, H. done.
Qed.

(** No match: the stderr line comes first, then whatever the second loop
    prints. *)
Lemma match_rate_none plan row :
  fst (PricePlan.match_rate plan row) = None ->
  PricePlan.match_rate plan row
  = (None, CouldNotFindRate (PricePlan.name plan) row
             :: snd (PricePlan.explain (PricePlan.rates plan) row)).
Proof.
  intros H. rewrite match_rate_fst in H.
  unfold PricePlan.match_rate.
  rewrite (out_eta (PricePlan.first_rate _ _)), H, first_rate_quiet.
  simpl. destruct (PricePlan.explain _ _) as [[] o]. simpl.
  by rewrite app_nil_r.
Qed.

Lemma plan_cost_none plan row :
  fst (PricePlan.match_rate plan row) = None ->
  fst (PricePlan.cost plan row) = zero.
Proof.
  intros H. unfold PricePlan.cost. by rewrite bind_fst, H.
Qed.

Lemma plan_cost_some plan row rate :
  fst (PricePlan.match_rate plan row) = Some rate ->
  PricePlan.cost plan row = PlanRate.cost rate row.
Proof.
  intros H. unfold PricePlan.cost. rewrite (match_rate_some _ _ _ H).
  simpl. by destruct (PlanRate.cost rate row).
Qed.

End Methods.

(** ** Doubles *)

Section FloatFacts.

Import Float.

Lemma div_half_even_bounds n d :
  0 < d -> n / d <= div_half_even n d <= n / d + 1.
Proof.
  intros Hd. unfold div_half_even.
  destruct ((d <? 2 * (n mod d)) || ((2 * (n mod d) =? d) && Z.odd (n / d))); lia.
Qed.

Lemma div_half_even_error n d :
  0 < d -> 2 * Z.abs (div_half_even n d * d - n) <= d.
Proof.
  intros Hd. unfold div_half_even.
  pose proof (Z.div_mod n d ltac:(lia)) as Hdm.
  pose proof (Z.mod_pos_bound n d Hd) as Hr.
  set (q := n / d) in *. set (r := n mod d) in *.
  destruct ((d <? 2 * r) || ((2 * r =? d) && Z.odd q)) eqn:Hup.
  - apply orb_true_iff in Hup.
    assert (d <= 2 * r) as Hhalf.
    { destruct Hup as [H|H]; [apply Z.ltb_lt in H; lia|].
      apply andb_true_iff in H. destruct H as [H _]. apply Z.eqb_eq in H. lia. }
    replace ((q + 1) * d - n) with (d - r) by lia. lia.
  - apply orb_false_iff in Hup. destruct Hup as [H _]. apply Z.ltb_ge in H.
    replace (q * d - n) with (- r) by lia. lia.
Qed.

Lemma div_half_even_mono n1 n2 d :
  0 < d -> n1 <= n2 -> div_half_even n1 d <= div_half_even n2 d.
Proof.
  intros Hd Hle.
  pose proof (Z.div_le_mono n1 n2 d Hd Hle) as Hq.
  destruct (Z.eq_dec (n1 / d) (n2 / d)) as [Heq|Hne].
  - unfold div_half_even. rewrite <- Heq.
    pose proof (Z.div_mod n1 d ltac:(lia)) as H1.
    pose proof (Z.div_mod n2 d ltac:(lia)) as H2.
    rewrite <- Heq in H2.
    assert (n1 mod d <= n2 mod d) as Hr by lia.
    destruct ((d <? 2 * (n1 mod d)) || ((2 * (n1 mod d) =? d) && Z.odd (n1 / d))) eqn:Hup1;
      destruct ((d <? 2 * (n2 mod d)) || ((2 * (n2 mod d) =? d) && Z.odd (n1 / d))) eqn:Hup2;
      try lia.
    exfalso. apply orb_false_iff in Hup2. destruct Hup2 as [Hlt Htie].
    apply Z.ltb_ge in Hlt. apply orb_true_iff in Hup1.
    destruct Hup1 as [H|H]; [apply Z.ltb_lt in H; lia|].
    apply andb_true_iff in H. destruct H as [H Hodd]. apply Z.eqb_eq in H.
    rewrite Hodd, andb_true_r in Htie. apply Z.eqb_neq in Htie. lia.
  - pose proof (div_half_even_bounds n1 d Hd). pose proof (div_half_even_bounds n2 d Hd).
    lia.
Qed.

Lemma div_half_even_exact q d : 0 < d -> div_half_even (q * d) d = q.
Proof.
  intros Hd. unfold div_half_even.
  rewrite Z.div_mul, Z.mod_mul by lia.
  replace (d <? 2 * 0) with false by (symmetry; apply Z.ltb_ge; lia).
  replace (2 * 0 =? d) with false by (symmetry; apply Z.eqb_neq; lia).
  reflexivity.
Qed.

Lemma pow2_pos k : 0 < 2 ^ k \/ k < 0.
Proof. destruct (Z_lt_le_dec k 0); [right; lia | left; apply Z.pow_pos_nonneg; lia]. Qed.

Lemma binade_spec t :
  2 ^ 20 <= t ->
  0 <= binade t
  /\ 1000000 * 2 ^ binade t <= t < 1000000 * 2 ^ (binade t + 1).
Proof.
  intros Ht. unfold binade.
  assert (0 < t) as Hpos by (pose proof (Z.pow_pos_nonneg 2 20); lia).
  pose proof (Z.log2_spec t Hpos) as [Hlo Hhi].
  assert (20 <= Z.log2 t) as Hlog by (apply Z.log2_le_pow2; lia).
  change (Z.log2 1000000) with 19.
  set (a := Z.log2 t) in *.
  assert (0 < 2 ^ (a - 20)) as Hp by (apply Z.pow_pos_nonneg; lia).
  assert (2 ^ (a - 19) = 2 * 2 ^ (a - 20)) as E19.
  { replace (a - 19) with (Z.succ (a - 20)) by lia. apply Z.pow_succ_r. lia. }
  assert (2 ^ (a - 19 + 1) = 4 * 2 ^ (a - 20)) as E18.
  { replace (a - 19 + 1) with (Z.succ (a - 19)) by lia.
    rewrite Z.pow_succ_r by lia. lia. }
  assert (2 ^ a = 1048576 * 2 ^ (a - 20)) as Ea.
  { replace a with ((a - 20) + 20) at 1 by lia. rewrite Z.pow_add_r by lia.
    change (2 ^ 20) with 1048576. lia. }
  assert (2 ^ (a + 1) = 2097152 * 2 ^ (a - 20)) as Ea1.
  { replace (a + 1) with (Z.succ a) by lia. rewrite Z.pow_succ_r by lia. lia. }
  destruct (1000000 * 2 ^ (a - 19) <=? t) eqn:Hcmp.
  - apply Z.leb_le in Hcmp. split; [lia|]. split; [exact Hcmp|]. lia.
  - apply Z.leb_gt in Hcmp. split; [lia|].
    replace (a - 19 - 1 + 1) with (a - 19) by lia.
    replace (a - 19 - 1) with (a - 20) by lia. lia.
Qed.

Lemma binade_mono t1 t2 :
  2 ^ 20 <= t1 -> t1 <= t2 -> binade t1 <= binade t2.
Proof.
  intros H1 Hle.
  destruct (binade_spec t1 H1) as (Hk1 & Hlo1 & Hhi1).
  destruct (binade_spec t2 ltac:(lia)) as (Hk2 & Hlo2 & Hhi2).
  destruct (Z_le_gt_dec (binade t1) (binade t2)) as [|Hgt]; [assumption|exfalso].
  assert (2 ^ (binade t2 + 1) <= 2 ^ binade t1) by (apply Z.pow_le_mono_r; lia).
  lia.
Qed.

(** The mantissa has 53 bits. *)
Lemma mantissa_bounds t :
  2 ^ 72 <= t ->
  let ulp := 2 ^ (binade t - 52) in
  52 <= binade t /\ 0 < ulp /\ 2 ^ binade t = 2 ^ 52 * ulp
  /\ 2 ^ 52 <= div_half_even t (1000000 * ulp) <= 2 ^ 53.
Proof.
  intros Ht ulp.
  assert (2 ^ 20 <= 2 ^ 72) as H20 by (apply Z.pow_le_mono_r; lia).
  destruct (binade_spec t ltac:(lia)) as (Hk & Hlo & Hhi).
  assert (52 <= binade t) as Hk52.
  { destruct (Z_le_gt_dec 52 (binade t)) as [|Hlt]; [assumption|exfalso].
    assert (2 ^ (binade t + 1) <= 2 ^ 52) by (apply Z.pow_le_mono_r; lia).
    assert (2 ^ 72 = 2 ^ 52 * 2 ^ 20) by (rewrite <- Z.pow_add_r by lia; reflexivity).
    change (2 ^ 20) with 1048576 in *.
    pose proof (Z.pow_pos_nonneg 2 52). lia. }
  assert (0 < ulp) as Hulp by (apply Z.pow_pos_nonneg; lia).
  assert (2 ^ binade t = 2 ^ 52 * ulp) as Ek.
  { unfold ulp. rewrite <- Z.pow_add_r by lia. f_equal. lia. }
  assert (2 ^ (binade t + 1) = 2 ^ 53 * ulp) as Ek1.
  { unfold ulp. rewrite <- Z.pow_add_r by lia. f_equal. lia. }
  split; [lia|]. split; [exact Hulp|]. split; [exact Ek|].
  pose proof (div_half_even_bounds t (1000000 * ulp) ltac:(lia)) as Hb.
  assert (2 ^ 52 <= t / (1000000 * ulp)).
  { apply Z.div_le_lower_bound; [lia|]. rewrite Ek in Hlo. lia. }
  assert (t / (1000000 * ulp) < 2 ^ 53).
  { apply Z.div_lt_upper_bound; [lia|]. rewrite Ek1 in Hhi. lia. }
  lia.
Qed.


Lemma scaled_ge x : 0 < x -> 2 ^ 72 <= x * 2 ^ scale.
Proof.
  intros Hx. unfold scale. pose proof (Z.pow_pos_nonneg 2 72). nia.
Qed.

Lemma of_micros_pos_mono x y :
  0 < x -> x <= y -> of_micros_pos x <= of_micros_pos y.
Proof.
  intros Hx Hle. unfold of_micros_pos.
  pose proof (scaled_ge x Hx) as Hsx. pose proof (scaled_ge y ltac:(lia)) as Hsy.
  assert (x * 2 ^ scale <= y * 2 ^ scale) as Hs.
  { apply Z.mul_le_mono_nonneg_r; [|assumption]. unfold scale.
    pose proof (Z.pow_pos_nonneg 2 72). lia. }
  set (t1 := x * 2 ^ scale) in *. set (t2 := y * 2 ^ scale) in *.
  assert (2 ^ 20 <= 2 ^ 72) as H20 by (apply Z.pow_le_mono_r; lia).
  pose proof (binade_mono t1 t2 ltac:(lia) Hs) as Hk.
  destruct (mantissa_bounds t1 Hsx) as (_ & Hu1 & Ek1 & Hm1).
  destruct (mantissa_bounds t2 Hsy) as (_ & Hu2 & Ek2 & Hm2).
  destruct (Z.eq_dec (binade t1) (binade t2)) as [Heq|Hne].
  - rewrite <- Heq in *. apply Z.mul_le_mono_nonneg_l; [lia|].
    apply div_half_even_mono; lia.
  - assert (2 ^ (binade t1 + 1) <= 2 ^ binade t2) as Hpow
      by (apply Z.pow_le_mono_r; lia).
    replace (binade t1 + 1) with (Z.succ (binade t1)) in Hpow by lia.
    destruct (binade_spec t1 ltac:(lia)) as (Hk1 & _).
    rewrite Z.pow_succ_r in Hpow by lia.
    set (u1 := 2 ^ (binade t1 - 52)) in *. set (u2 := 2 ^ (binade t2 - 52)) in *.
    set (m1 := div_half_even t1 (1000000 * u1)) in *.
    set (m2 := div_half_even t2 (1000000 * u2)) in *.
    change (2 ^ 53) with (2 * 2 ^ 52) in Hm1.
    assert (u1 * m1 <= u1 * (2 * 2 ^ 52)) by (apply Z.mul_le_mono_nonneg_l; lia).
    assert (u2 * 2 ^ 52 <= u2 * m2) by (apply Z.mul_le_mono_nonneg_l; lia).
    lia.
Qed.

Lemma of_micros_pos_positive x : 0 < x -> 0 < of_micros_pos x.
Proof.
  intros Hx. unfold of_micros_pos.
  destruct (mantissa_bounds _ (scaled_ge x Hx)) as (_ & Hu & _ & Hm).
  apply Z.mul_pos_pos; [exact Hu|]. pose proof (Z.pow_pos_nonneg 2 52). lia.
Qed.

(** Rounding keeps the order of the instants. *)
Lemma of_micros_mono x y : x <= y -> of_micros x <= of_micros y.
Proof.
  intros Hle. destruct x as [|px|px], y as [|py|py]; cbn [of_micros]; try lia.
  - pose proof (of_micros_pos_positive (Z.pos py)). lia.
  - apply of_micros_pos_mono; lia.
  - pose proof (of_micros_pos_positive (- Z.neg px)). lia.
  - pose proof (of_micros_pos_positive (- Z.neg px)).
    pose proof (of_micros_pos_positive (Z.pos py)). lia.
  - pose proof (of_micros_pos_mono (- Z.neg py) (- Z.neg px)). lia.
Qed.

Lemma of_micros_opp x : of_micros (- x) = - of_micros x.
Proof.
  destruct x as [|p|p]; [reflexivity|reflexivity|].
  change (of_micros_pos (Z.pos p) = - - of_micros_pos (Z.pos p)). lia.
Qed.

(** Below 2^34 seconds a double is less than a microsecond away. *)
Lemma of_micros_pos_near x :
  0 < x < 2 ^ 34 * 1000000 ->
  Z.abs (1000000 * of_micros_pos x - x * 2 ^ scale) < 2 ^ scale.
Proof.
  intros [Hx Hhi]. unfold of_micros_pos.
  pose proof (scaled_ge x Hx) as Hs.
  assert (2 ^ 20 <= 2 ^ 72) as H20 by (apply Z.pow_le_mono_r; lia).
  destruct (binade_spec (x * 2 ^ scale) ltac:(lia)) as (Hk & Hlo & _).
  destruct (mantissa_bounds _ Hs) as (Hk52 & Hu & Ek & _).
  assert (binade (x * 2 ^ scale) <= 105) as Hk'.
  { destruct (Z_le_gt_dec (binade (x * 2 ^ scale)) 105) as [|Hgt]; [assumption|exfalso].
    assert (2 ^ 106 <= 2 ^ binade (x * 2 ^ scale)) by (apply Z.pow_le_mono_r; lia).
    assert (2 ^ 106 = 2 ^ 34 * 2 ^ scale)
      by (unfold scale; rewrite <- Z.pow_add_r by lia; reflexivity).
    assert (0 < 2 ^ scale) by (apply Z.pow_pos_nonneg; unfold scale; lia).
    assert (x * 2 ^ scale < 2 ^ 34 * 1000000 * 2 ^ scale)
      by (apply Z.mul_lt_mono_pos_r; lia).
    lia. }
  set (t := x * 2 ^ scale) in *. set (u := 2 ^ (binade t - 52)) in *.
  pose proof (div_half_even_error t (1000000 * u) ltac:(lia)) as Herr.
  set (m := div_half_even t (1000000 * u)) in *.
  assert (u <= 2 ^ 53) as Hu' by (apply Z.pow_le_mono_r; lia).
  assert (2 ^ scale = 1048576 * 2 ^ 52) as Esc
    by (unfold scale; change 1048576 with (2 ^ 20); rewrite <- Z.pow_add_r by lia; reflexivity).
  assert (2 ^ 53 = 2 * 2 ^ 52) as E55
    by (change 2 with (2 ^ 1) at 2; rewrite <- Z.pow_add_r by lia; reflexivity).
  replace (1000000 * (u * m) - t) with (m * (1000000 * u) - t) by lia.
  rewrite Esc. pose proof (Z.pow_pos_nonneg 2 52). lia.
Qed.

Lemma of_micros_near x :
  Z.abs x < 2 ^ 34 * 1000000 ->
  Z.abs (1000000 * of_micros x - x * 2 ^ scale) < 2 ^ scale.
Proof.
  intros Hx. destruct x as [|p|p]; cbn [of_micros].
  - replace (1000000 * 0 - 0 * 2 ^ scale) with 0 by lia.
    change (Z.abs 0) with 0. apply Z.pow_pos_nonneg; unfold scale; lia.
  - apply of_micros_pos_near. lia.
  - pose proof (of_micros_pos_near (- Z.neg p) ltac:(lia)). lia.
Qed.

(** Whole seconds below 2^53 are doubles. *)
Lemma of_micros_pos_whole n :
  0 < n < 2 ^ 53 -> of_micros_pos (n * 1000000) = n * 2 ^ scale.
Proof.
  intros [Hn Hhi]. unfold of_micros_pos.
  pose proof (scaled_ge (n * 1000000) ltac:(lia)) as Hs.
  assert (2 ^ 20 <= 2 ^ 72) as H20 by (apply Z.pow_le_mono_r; lia).
  destruct (binade_spec (n * 1000000 * 2 ^ scale) ltac:(lia)) as (Hk & Hlo & _).
  destruct (mantissa_bounds _ Hs) as (Hk52 & Hu & Ek & _).
  assert (0 < 2 ^ scale) as Hsc by (apply Z.pow_pos_nonneg; unfold scale; lia).
  assert (binade (n * 1000000 * 2 ^ scale) <= 124) as Hk'.
  { destruct (Z_le_gt_dec (binade (n * 1000000 * 2 ^ scale)) 124) as [|Hgt];
      [assumption|exfalso].
    assert (2 ^ 125 <= 2 ^ binade (n * 1000000 * 2 ^ scale))
      by (apply Z.pow_le_mono_r; lia).
    assert (2 ^ 125 = 2 ^ 53 * 2 ^ scale)
      by (unfold scale; rewrite <- Z.pow_add_r by lia; reflexivity).
    assert (n * 2 ^ scale < 2 ^ 53 * 2 ^ scale) by (apply Z.mul_lt_mono_pos_r; lia).
    lia. }
  set (k := binade (n * 1000000 * 2 ^ scale)) in *.
  set (u := 2 ^ (k - 52)) in *.
  assert (2 ^ scale = 2 ^ (124 - k) * u) as Esc.
  { unfold u, scale. rewrite <- Z.pow_add_r by lia. f_equal. lia. }
  replace (n * 1000000 * 2 ^ scale) with (n * 2 ^ (124 - k) * (1000000 * u))
    by (rewrite Esc; ring).
  rewrite div_half_even_exact by lia. rewrite Esc. ring.
Qed.

Lemma of_micros_whole n :
  Z.abs n < 2 ^ 53 -> of_micros (n * 1000000) = n * 2 ^ scale.
Proof.
  intros Hn. destruct n as [|p|p].
  - reflexivity.
  - change (of_micros (Z.pos p * 1000000)) with (of_micros_pos (Z.pos p * 1000000)).
    apply of_micros_pos_whole. lia.
  - replace (Z.neg p * 1000000) with (- (Z.pos p * 1000000)) by lia.
    rewrite of_micros_opp.
    change (of_micros (Z.pos p * 1000000)) with (of_micros_pos (Z.pos p * 1000000)).
    rewrite of_micros_pos_whole by lia. lia.
Qed.


(** Three ways in which the doubles of two instants are ordered as the
    instants are: [y] is near the epoch and [x] is not within a microsecond
    after it; a whole second lies between them, at or before [x]; a whole
    second lies between them, at or after [y]. *)
Lemma float_leb_gap x y :
  Z.abs y < 2 ^ 34 * 1000000 - 2 ->
  x <= y \/ y + 2 <= x ->
  (of_micros x <=? of_micros y) = (x <=? y).
Proof.
  intros Hy [Hle|Hgap].
  - pose proof (of_micros_mono x y Hle).
    apply eq_true_iff_eq. rewrite !Z.leb_le. lia.
  - pose proof (of_micros_near y ltac:(lia)) as Hn1.
    pose proof (of_micros_near (y + 2) ltac:(lia)) as Hn2.
    pose proof (of_micros_mono (y + 2) x Hgap) as Hm.
    assert (0 < 2 ^ scale) as Hsc by (apply Z.pow_pos_nonneg; unfold scale; lia).
    set (s := 2 ^ scale) in *.
    assert (of_micros y < of_micros (y + 2)) by nia.
    replace (x <=? y) with false by (symmetry; apply Z.leb_gt; lia).
    apply Z.leb_gt. lia.
Qed.

Lemma float_leb_floor n x y :
  Z.abs n < 2 ^ 34 ->
  n * 1000000 <= x ->
  x <= y \/ y < n * 1000000 ->
  (of_micros x <=? of_micros y) = (x <=? y).
Proof.
  intros Hn Hx [Hle|Hlt].
  - pose proof (of_micros_mono x y Hle).
    apply eq_true_iff_eq. rewrite !Z.leb_le. lia.
  - pose proof (of_micros_near (n * 1000000 - 1) ltac:(lia)) as Hn1.
    pose proof (of_micros_whole n ltac:(change (2 ^ 53) with (2 ^ 34 * 2 ^ 19); lia)) as Hw.
    pose proof (of_micros_mono y (n * 1000000 - 1) ltac:(lia)) as Hm1.
    pose proof (of_micros_mono (n * 1000000) x Hx) as Hm2.
    assert (0 < 2 ^ scale) as Hsc by (apply Z.pow_pos_nonneg; unfold scale; lia).
    set (s := 2 ^ scale) in *.
    assert (of_micros (n * 1000000 - 1) < of_micros (n * 1000000)) by nia.
    replace (x <=? y) with false by (symmetry; apply Z.leb_gt; lia).
    apply Z.leb_gt. lia.
Qed.

Lemma float_leb_ceil n x y :
  Z.abs n < 2 ^ 34 ->
  y <= n * 1000000 ->
  x <= y \/ n * 1000000 < x ->
  (of_micros x <=? of_micros y) = (x <=? y).
Proof.
  intros Hn Hy [Hle|Hlt].
  - pose proof (of_micros_mono x y Hle).
    apply eq_true_iff_eq. rewrite !Z.leb_le. lia.
  - pose proof (of_micros_near (n * 1000000 + 1) ltac:(lia)) as Hn1.
    pose proof (of_micros_whole n ltac:(change (2 ^ 53) with (2 ^ 34 * 2 ^ 19); lia)) as Hw.
    pose proof (of_micros_mono y (n * 1000000) Hy) as Hm1.
    pose proof (of_micros_mono (n * 1000000 + 1) x ltac:(lia)) as Hm2.
    assert (0 < 2 ^ scale) as Hsc by (apply Z.pow_pos_nonneg; unfold scale; lia).
    set (s := 2 ^ scale) in *.
    assert (of_micros (n * 1000000) < of_micros (n * 1000000 + 1)) by nia.
    replace (x <=? y) with false by (symmetry; apply Z.leb_gt; lia).
    apply Z.leb_gt. lia.
Qed.

End FloatFacts.

(** ** Time windows *)

Section Windows.

Import Arrow.

Lemma valid_bounds a :
  valid a = true ->
  1500 <= year a <= 2500 /\ 1 <= month a <= 12 /\
  1 <= day a <= days_in_month (year a) (month a) /\
  0 <= hour a <= 23 /\ 0 <= minute a <= 59 /\
  0 <= second a <= 59 /\ 0 <= microsecond a <= 999999.
Proof.
  unfold valid. rewrite !andb_true_iff, !Z.leb_le. tauto.
Qed.

Lemma well_formed_bounds a :
  well_formed a = true ->
  1 <= year a <= 9999 /\ 1 <= month a <= 12 /\
  1 <= day a <= days_in_month (year a) (month a) /\
  0 <= hour a <= 23 /\ 0 <= minute a <= 59 /\
  0 <= second a <= 59 /\ 0 <= microsecond a <= 999999.
Proof.
  unfold well_formed. rewrite !andb_true_iff, !Z.leb_le. tauto.
Qed.

Lemma valid_well_formed a : valid a = true -> well_formed a = true.
Proof.
  intros Hv. apply valid_bounds in Hv.
  unfold well_formed. rewrite !andb_true_iff, !Z.leb_le. lia.
Qed.

Lemma days_before_year_bounds y :
  1500 <= y <= 2501 -> 547498 <= days_before_year y <= 913106.
Proof.
  intros Hy. unfold days_before_year. Z.div_mod_to_equations. lia.
Qed.

Lemma days_before_month_bounds y m : 0 <= days_before_month y m <= 335.
Proof.
  unfold days_before_month.
  destruct ((2 <? m) && is_leap y);
    (destruct m as [|p|p]; [lia| |lia]);
    do 4 (try destruct p as [p|p|]); lia.
Qed.

Lemma days_in_month_bounds y m : 28 <= days_in_month y m <= 31.
Proof.
  unfold days_in_month. destruct (is_leap y);
    (destruct m as [|p|p]; [lia| |lia]);
    do 4 (try destruct p as [p|p|]); lia.
Qed.

(** The years 1500 to 2500 lie near the epoch, with a day to spare. *)
Lemma valid_range a :
  valid a = true ->
  Z.abs (epoch_micros a) < (2 ^ 34 - 1) * 1000000 - 86400000000.
Proof.
  intros Hv. apply valid_bounds in Hv.
  destruct Hv as (Hy & Hmo & Hd & Hh & Hmi & Hs & Hus).
  pose proof (days_before_year_bounds (year a) ltac:(lia)).
  pose proof (days_before_month_bounds (year a) (month a)).
  pose proof (days_in_month_bounds (year a) (month a)).
  unfold epoch_micros, utc_offset, timestamp, toordinal.
  change (2 ^ 34) with 17179869184. lia.
Qed.

Lemma valid_near_epoch a : valid a = true -> near_epoch a = true.
Proof.
  intros Hv. apply valid_range in Hv. unfold near_epoch. apply Z.ltb_lt. lia.
Qed.

(** Near the epoch the doubles decide an hour window of the reading's day
    as the instants do: the start bound is the reading moved by whole
    hours, and next to the end bound comes a whole second. *)
Lemma is_between_hours a h1 h2 :
  well_formed a = true -> near_epoch a = true ->
  is_between a (replace_hour h1 a) (ceil_hour (replace_hour h2 a))
  = (timestamp (replace_hour h1 a) <=? timestamp a)
    && (timestamp a <=? timestamp (ceil_hour (replace_hour h2 a))).
Proof.
  intros Hwf Hnear. apply well_formed_bounds in Hwf.
  destruct Hwf as (_ & _ & _ & _ & Hmi & Hs & Hus).
  unfold near_epoch in Hnear. apply Z.ltb_lt in Hnear.
  change (2 ^ 34) with 17179869184 in Hnear.
  unfold is_between, float_timestamp. f_equal.
  - rewrite float_leb_gap.
    + apply eq_true_iff_eq. rewrite !Z.leb_le. unfold epoch_micros. lia.
    + change (2 ^ 34) with 17179869184. lia.
    + unfold epoch_micros, timestamp, toordinal; cbn [year month day
        hour minute second microsecond replace_hour].
      set (o := days_before_year _ + _ + _). lia.
  - rewrite (float_leb_floor
               ((((toordinal a * 24 + hour a) * 60 + minute a) * 60 + second a)
                - 719163 * 86400 - utc_offset)).
    + apply eq_true_iff_eq. rewrite !Z.leb_le. unfold epoch_micros. lia.
    + unfold epoch_micros, timestamp, utc_offset in *.
      change (2 ^ 34) with 17179869184. lia.
    + unfold epoch_micros, timestamp. lia.
    + unfold epoch_micros, timestamp, utc_offset, toordinal; cbn [year month day
        hour minute second microsecond replace_hour ceil_hour].
      set (o := days_before_year _ + _ + _). lia.
Qed.

(** In the years 1500 to 2500 the doubles decide a window around the start
    of a day as the instants do: the start of a day is a whole second. *)
Lemma is_between_floor_day a s e :
  valid a = true ->
  is_between (floor_day a) s e
  = (timestamp s <=? timestamp (floor_day a))
    && (timestamp (floor_day a) <=? timestamp e).
Proof.
  intros Hv. pose proof (valid_range a Hv) as Hr.
  apply valid_bounds in Hv.
  destruct Hv as (Hy & Hmo & Hd & Hh & Hmi & Hs & Hus).
  change (2 ^ 34) with 17179869184 in Hr.
  assert (Z.abs (toordinal a * 86400 - 719163 * 86400 - utc_offset) < 2 ^ 34) as Hn.
  { revert Hr. unfold epoch_micros, timestamp, utc_offset.
    change (2 ^ 34) with 17179869184. lia. }
  assert (epoch_micros (floor_day a)
          = (toordinal a * 86400 - 719163 * 86400 - utc_offset) * 1000000) as Ef.
  { unfold epoch_micros, timestamp, toordinal; cbn [year month day
      hour minute second microsecond floor_day]. lia. }
  unfold is_between, float_timestamp. f_equal.
  - rewrite (float_leb_ceil _ _ _ Hn).
    + apply eq_true_iff_eq. rewrite !Z.leb_le. unfold epoch_micros. lia.
    + lia.
    + lia.
  - rewrite (float_leb_floor _ _ _ Hn).
    + apply eq_true_iff_eq. rewrite !Z.leb_le. unfold epoch_micros. lia.
    + lia.
    + lia.
Qed.

(** An hour window on the day of the reading is a test on its hour, both
    ends included. *)
Lemma hour_between_near_epoch h1 h2 row :
  well_formed (Timestamp row) = true -> near_epoch (Timestamp row) = true ->
  hour_between h1 h2 row
  = (h1 <=? hour (Timestamp row)) && (hour (Timestamp row) <=? h2).
Proof.
  intros Hwf Hnear. unfold hour_between. rewrite is_between_hours by assumption.
  apply well_formed_bounds in Hwf.
  unfold timestamp, toordinal; cbn [year month day
    hour minute second microsecond replace_hour ceil_hour].
  set (o := days_before_year _ + _ + _).
  apply eq_true_iff_eq. rewrite !andb_true_iff, !Z.leb_le. lia.
Qed.

Lemma hour_between_hours h1 h2 row :
  valid (Timestamp row) = true ->
  hour_between h1 h2 row
  = (h1 <=? hour (Timestamp row)) && (hour (Timestamp row) <=? h2).
Proof.
  intros Hv. apply hour_between_near_epoch.
  - by apply valid_well_formed.
  - by apply valid_near_epoch.
Qed.

Lemma month_cases m :
  1 <= m <= 12 ->
  m = 1 \/ m = 2 \/ m = 3 \/ m = 4 \/ m = 5 \/ m = 6 \/
  m = 7 \/ m = 8 \/ m = 9 \/ m = 10 \/ m = 11 \/ m = 12.
Proof. lia. Qed.

Ltac by_month H :=
  destruct (month_cases _ H) as
    [Hm|[Hm|[Hm|[Hm|[Hm|[Hm|[Hm|[Hm|[Hm|[Hm|[Hm|Hm]]]]]]]]]]];
  rewrite Hm in *.

(** On June 1 the summer window holds at midnight only: the start bound
    carries the reading's own time of day. *)
Lemma summer_days_june_first row :
  valid (Timestamp row) = true ->
  month (Timestamp row) = 6 -> day (Timestamp row) = 1 ->
  summer_days row = midnight (Timestamp row).
Proof.
  intros Hv Hm Hd. unfold summer_days. rewrite is_between_floor_day by exact Hv.
  apply valid_bounds in Hv.
  unfold midnight, timestamp, toordinal;
    cbn [year month day hour minute second microsecond
         replace_month_day floor_day ceil_day].
  rewrite Hm, Hd. unfold days_before_month; simpl (2 <? _).
  set (o := days_before_year _). destruct (is_leap _); simpl.
  all: apply eq_true_iff_eq; rewrite !andb_true_iff, !Z.leb_le, !Z.eqb_eq; lia.
Qed.

(** From June 2 to October 31 the summer window holds at every hour. *)
Lemma summer_days_inside row :
  valid (Timestamp row) = true ->
  (month (Timestamp row) = 6 /\ 2 <= day (Timestamp row))
  \/ 7 <= month (Timestamp row) <= 10 ->
  summer_days row = true.
Proof.
  intros Hv Hin. unfold summer_days. rewrite is_between_floor_day by exact Hv.
  apply valid_bounds in Hv.
  destruct Hv as (Hy & Hmo & Hd & Hh & Hmi & Hs & Hus).
  unfold timestamp, toordinal;
    cbn [year month day hour minute second microsecond
         replace_month_day floor_day ceil_day].
  unfold days_before_month, days_in_month in *.
  set (o := days_before_year _).
  by_month Hmo; try lia; simpl in *; destruct (is_leap _); simpl in *.
  all: rewrite andb_true_iff, !Z.leb_le; lia.
Qed.

(** From January to May the winter window never holds: both bounds are
    taken in the reading's own year, so the window starts on its
    November 1. *)
Lemma winter_days_spring row :
  valid (Timestamp row) = true ->
  month (Timestamp row) <= 5 ->
  winter_days row = false.
Proof.
  intros Hv Hin. unfold winter_days. rewrite is_between_floor_day by exact Hv.
  apply valid_bounds in Hv.
  destruct Hv as (Hy & Hmo & Hd & Hh & Hmi & Hs & Hus).
  unfold timestamp, toordinal;
    cbn [year month day hour minute second microsecond
         replace_month_day floor_day ceil_day shift_years].
  unfold days_before_month, days_in_month in *.
  set (o := days_before_year _).
  apply andb_false_iff. left. apply Z.leb_gt.
  by_month Hmo; try lia; simpl in *; destruct (is_leap _); simpl in *; lia.
Qed.

(** On November 1 the winter window holds at midnight only. *)
Lemma winter_days_november_first row :
  valid (Timestamp row) = true ->
  month (Timestamp row) = 11 -> day (Timestamp row) = 1 ->
  winter_days row = midnight (Timestamp row).
Proof.
  intros Hv Hm Hd. unfold winter_days. rewrite is_between_floor_day by exact Hv.
  apply valid_bounds in Hv.
  unfold midnight, timestamp, toordinal;
    cbn [year month day hour minute second microsecond
         replace_month_day floor_day ceil_day shift_years].
  rewrite Hm, Hd. unfold days_before_month, days_before_year, days_in_month.
  simpl (2 <? _). simpl (Z.min _ _).
  destruct (is_leap (year (Timestamp row))), (is_leap (year (Timestamp row) + 1));
    simpl.
  all: apply eq_true_iff_eq; rewrite !andb_true_iff, !Z.leb_le, !Z.eqb_eq.
  all: Z.div_mod_to_equations; lia.
Qed.

End Windows.

(** * The hour and calendar windows of D1.2 *)



(** C4 as stated, for every timestamp: on January 1, 3000 at 11:00:00 the
    window "19:00-10:59" holds.  So far from the epoch the end bound
    10:59:59.999999 and the reading at 11:00:00 have the same double for
    their seconds, and [is_between] takes the reading as not later than the
    bound. *)
Lemma off_peak_hours_at_eleven :
  Arrow.well_formed (Arrow.mk 3000 1 1 11 0 0 0) = true
  /\ Arrow.hour (Timestamp (row_at (Arrow.mk 3000 1 1 11 0 0 0) (D 25 (-1)) (D 25 (-1)))) = 11
  /\ off_peak_hours (row_at (Arrow.mk 3000 1 1 11 0 0 0) (D 25 (-1)) (D 25 (-1))) = true
  /\ Arrow.float_timestamp (Arrow.mk 3000 1 1 10 59 59 999999)
     = Arrow.float_timestamp (Arrow.mk 3000 1 1 11 0 0 0).
Proof. repeat split; vm_compute; reflexivity. Qed.

(** C2: the window "Nov 1 - May 31" as the script evaluates it.  Both bounds
    are built from the reading's own year: it holds on December 15, 2021 and
    not on July 1, 2021, but it does not hold on March 1, 2022 either. *)
Theorem winter_days_anchored_to_reading_year :
  winter_days (row_at (Arrow.mk 2021 12 15 0 0 0 0) (D 25 (-1)) (D 25 (-1))) = true
  /\ winter_days (row_at (Arrow.mk 2021 7 1 0 0 0 0) (D 25 (-1)) (D 25 (-1))) = false
  /\ winter_days (row_at (Arrow.mk 2022 3 1 0 0 0 0) (D 25 (-1)) (D 25 (-1))) = false.
Proof. repeat split; vm_compute; reflexivity. Qed.

(** C7: the calendar windows on their first day.  At 05:00 of June 1 the
    summer window does not hold, at 05:00 of November 1 the winter window
    does not hold; at midnight of either day, and at 05:00 of October 31,
    the windows hold. *)
Theorem calendar_windows_first_day :
  summer_days (row_at (Arrow.mk 2021 6 1 5 0 0 0) (D 25 (-1)) (D 25 (-1))) = false
  /\ winter_days (row_at (Arrow.mk 2021 11 1 5 0 0 0) (D 25 (-1)) (D 25 (-1))) = false
  /\ summer_days (row_at (Arrow.mk 2021 6 1 0 0 0 0) (D 25 (-1)) (D 25 (-1))) = true
  /\ winter_days (row_at (Arrow.mk 2021 11 1 0 0 0 0) (D 25 (-1)) (D 25 (-1))) = true
  /\ summer_days (row_at (Arrow.mk 2021 10 31 5 0 0 0) (D 25 (-1)) (D 25 (-1))) = true.
Proof. repeat split; vm_compute; reflexivity. Qed.

(** * Thresholds, cost and the daily tally *)

(** C8: the D1 thresholds compare the numbers exactly.  [<=17] holds exactly
    when the cumulative usage, as a rational number, is at most 17, and
    [>17] exactly when it is not; at 17 the first holds and the second does
    not, at 17.0001 it is the other way round. *)
Theorem thresholds_compare_exactly :
  (forall row, le_17 row = Qle_bool (Decimal.val (Daily_Cumulative row)) (17 # 1))
  /\ (forall row, gt_17 row = negb (Qle_bool (Decimal.val (Daily_Cumulative row)) (17 # 1)))
  /\ le_17 (row_at july_noon (D 25 (-1)) (D 17 0)) = true
  /\ gt_17 (row_at july_noon (D 25 (-1)) (D 17 0)) = false
  /\ le_17 (row_at july_noon (D 25 (-1)) (D 170001 (-4))) = false
  /\ gt_17 (row_at july_noon (D 25 (-1)) (D 170001 (-4))) = true.
Proof.
  assert (H17 : (Decimal.val (Decimal.of_int 17) == 17 # 1)%Q) by apply val_of_int.
  split; [|split; [|repeat split; vm_compute; reflexivity]].
  - intros row. unfold le_17. apply eq_true_iff_eq.
    rewrite le_val, Qle_bool_iff, H17. reflexivity.
  - intros row. unfold gt_17. apply eq_true_iff_eq.
    rewrite gt_val, negb_true_iff, H17.
    rewrite <- not_true_iff_false, Qle_bool_iff. split.
    + apply Qlt_not_le.
    + apply Qnot_le_lt.
Qed.




Section Tally.

Lemma pbind_fst {A B} (m : Py A) (k : A -> Py B) :
  fst (pbind m k) = match fst m with Ok a => fst (k a) | Raise e => Raise e end.
Proof. destruct m as [[a|e] o]; simpl; [by destruct (k a) | done]. Qed.

(** The plan loop only adds columns. *)
Lemma annotate_same_reading plan row row1 :
  fst (annotate plan row) = Ok row1 -> exists cols, row1 = with_columns cols row.
Proof.
  unfold annotate. rewrite pbind_fst. cbn [lift fst].
  destruct (fst (PricePlan.match_rate plan row)) as [rate|];
    rewrite pbind_fst; cbn [ok raise fst]; [|done].
  rewrite pbind_fst. cbn [lift ok fst]. intros [= <-]. eexists. reflexivity.
Qed.

Lemma annotate_all_same_reading ps row row1 :
  fst (annotate_all ps row) = Ok row1 -> exists cols, row1 = with_columns cols row.
Proof.
  revert row; induction ps as [|plan rest IH]; intros row.
  - intros [= <-]. exists (columns row). by destruct row.
  - cbn [annotate_all]. rewrite pbind_fst.
    destruct (fst (annotate plan row)) as [row2|e] eqn:Hplan; [|done].
    intros Hrest. apply annotate_same_reading in Hplan as [cols ->].
    apply IH in Hrest as [cols' ->]. by exists cols'.
Qed.

(** The rows the loop produces carry the values of the tally. *)
Lemma meter_loop_cumulative ps rs : forall ts day_tally rows,
  fst (meter_loop ps ts day_tally rs) = Ok rows ->
  map Daily_Cumulative rows = tally_loop ts day_tally rs.
Proof.
  induction rs as [|r rest IH]; intros ts day_tally rows.
  - by intros [= <-].
  - cbn [meter_loop tally_loop].
    destruct (next_tally ts day_tally r) as [ts1 cumulative].
    rewrite pbind_fst.
    destruct (fst (annotate_all ps _)) as [row1|e] eqn:Hrow; [|done].
    rewrite pbind_fst.
    destruct (fst (meter_loop ps ts1 cumulative rest)) as [rows1|e] eqn:Hrest; [|done].
    simpl. intros [= <-]. simpl. f_equal.
    + by apply annotate_all_same_reading in Hrow as [cols ->].
    + by apply IH.
Qed.

Lemma fold_spec_step rs : forall ts day_tally given,
  assigned (fold_left spec_step rs (mkAcc ts day_tally given))
  = given ++ tally_loop ts day_tally rs.
Proof.
  induction rs as [|r rest IH]; intros ts day_tally given.
  - simpl. by rewrite app_nil_r.
  - cbn [fold_left tally_loop]. unfold spec_step at 2, next_tally.
    cbn [current_date running_total assigned].
    destruct (Arrow.date_gt (Arrow.date (rd_timestamp r)) ts);
      cbn [current_date running_total assigned];
      rewrite IH, <- app_assoc; reflexivity.
Qed.

End Tally.

(** C3: the daily tally is a left fold over the sorted readings of a meter.
    The total starts at zero and the current date at the date of the first
    reading; a reading dated after the current date resets the total and
    moves the date; the usage is then added and the sum is the reading's
    cumulative value.  The rows the loop produces carry these values.
    Usages 10 and 5 on one day and 3 on the next give 10, 15 and 3. *)
Theorem daily_cumulative_left_fold :
  (forall rs, daily_cumulative rs = spec_accumulate rs)
  /\ (forall ps rs,
        match fst (process_meter ps rs) with
        | Ok rows => map Daily_Cumulative rows = daily_cumulative rs
        | Raise _ => True
        end)
  /\ daily_cumulative three_readings = [D 100 (-1); D 150 (-1); D 30 (-1)]
  /\ Forall2 (fun d n => Decimal.eqb d (Decimal.of_int n) = true)
             (daily_cumulative three_readings) [10; 15; 3].
Proof.
  split; [|split; [|split]].
  - intros [|first rest]; [reflexivity|].
    unfold daily_cumulative, spec_accumulate.
    by rewrite fold_spec_step.
  - intros ps [|first rest]; [exact I|].
    unfold process_meter, daily_cumulative.
    destruct (fst (meter_loop ps _ zero (first :: rest))) as [rows|e] eqn:Hrows; [|exact I].
    by apply meter_loop_cumulative in Hrows.
  - reflexivity.
  - repeat constructor.
Qed.

(** * Tier resolution *)

Section Resolution.

Lemma first_rate_spec rs row :
  match fst (PricePlan.first_rate rs row) with
  | Some rate =>
      exists i : nat,
        rs !! i = Some rate
        /\ fst (PlanRate.is_rate rate row false) = true
        /\ forall (j : nat) other,
             rs !! j = Some other ->
             fst (PlanRate.is_rate other row false) = true -> (i <= j)%nat
  | None => Forall (fun rate => fst (PlanRate.is_rate rate row false) = false) rs
  end.
Proof.
  induction rs as [|rate rest IH].
  - simpl. constructor.
  - rewrite first_rate_cons.
    destruct (fst (PlanRate.is_rate rate row false)) eqn:Happlies.
    + exists 0%nat. repeat split; [done|]. intros j other _ _. lia.
    + destruct (fst (PricePlan.first_rate rest row)) as [found|].
      * destruct IH as (i & Hi & Hfound & Hmin).
        exists (S i). repeat split; [done..|].
        intros [|j] other Hj Hother; simpl in Hj.
        -- injection Hj as <-. congruence.
        -- specialize (Hmin j other Hj Hother). lia.
      * by constructor.
Qed.

Lemma first_rate_in rs row rate :
  fst (PricePlan.first_rate rs row) = Some rate -> In rate rs.
Proof.
  intros H. pose proof (first_rate_spec rs row) as Hspec. rewrite H in Hspec.
  destruct Hspec as (i & Hi & _). apply list_elem_of_In.
  by apply list_elem_of_lookup_2 in Hi.
Qed.

End Resolution.

(** C6: [match_rate] returns the first tier, in declared order, whose
    conditions all match.  When it returns a tier, that tier stands at some
    position of the list, all of its conditions hold for the reading, and
    every tier that applies to the reading stands at that position or later;
    when it returns none, no tier applies.  Of two tiers with the same
    condition, both applying, the first is returned. *)
Theorem match_rate_first_match :
  (forall plan row,
     match fst (PricePlan.match_rate plan row) with
     | Some rate =>
         exists i : nat,
           PricePlan.rates plan !! i = Some rate
           /\ Forall (fun c => RateCondition.match_ c row = true)
                     (PlanRate.conditions rate)
           /\ forall (j : nat) other,
                PricePlan.rates plan !! j = Some other ->
                fst (PlanRate.is_rate other row false) = true -> (i <= j)%nat
     | None =>
         Forall (fun rate => fst (PlanRate.is_rate rate row false) = false)
                (PricePlan.rates plan)
     end)
  /\ Forall (fun rate => fst (PlanRate.is_rate rate row_2_5 false) = true)
            (PricePlan.rates overlap_plan)
  /\ PlanRate.name <$> fst (PricePlan.match_rate overlap_plan row_2_5)
     = Some "First 17kWh"%string.
Proof.
  split; [|split; [repeat constructor | reflexivity]].
  intros plan row. rewrite match_rate_fst.
  pose proof (first_rate_spec (PricePlan.rates plan) row) as Hspec.
  destruct (fst (PricePlan.first_rate (PricePlan.rates plan) row)) as [rate|]; [|done].
  destruct Hspec as (i & Hi & Happlies & Hmin).
  exists i. repeat split; [done| |done]. by apply rate_is_rate_true.
Qed.

Lemma match_rate_first_match_witness :
  fst (PlanRate.is_rate first_17 row_2_5 false) = true
  /\ exists i : nat,
       PricePlan.rates overlap_plan !! i = Some first_17
       /\ forall (j : nat) other,
            PricePlan.rates overlap_plan !! j = Some other ->
            fst (PlanRate.is_rate other row_2_5 false) = true -> (i <= j)%nat.
Proof.
  split; [reflexivity|].
  destruct match_rate_first_match as [Hfirst _].
  specialize (Hfirst overlap_plan row_2_5).
  change (fst (PricePlan.match_rate overlap_plan row_2_5)) with (Some first_17) in Hfirst.
  destruct Hfirst as (i & Hi & _ & Hmin). exists i. split; [exact Hi | exact Hmin].
Defined.



(** * The plan columns of a row *)

Section Columns.

Lemma all_conditions_with_columns conds row cols debug :
  Forall ignores_columns conds ->
  PlanRate.all_conditions conds (with_columns cols row) debug
  = PlanRate.all_conditions conds row debug.
Proof.
  induction 1 as [|c rest Hc _ IH]; [done|].
  cbn [PlanRate.all_conditions]. unfold RateCondition.is_rate.
  by rewrite Hc, IH.
Qed.

Lemma rate_is_rate_with_columns rate row cols debug :
  Forall ignores_columns (PlanRate.conditions rate) ->
  PlanRate.is_rate rate (with_columns cols row) debug
  = PlanRate.is_rate rate row debug.
Proof. apply all_conditions_with_columns. Qed.

Lemma rate_cost_with_columns rate row cols :
  Forall ignores_columns (PlanRate.conditions rate) ->
  PlanRate.cost rate (with_columns cols row) = PlanRate.cost rate row.
Proof.
  intros H. unfold PlanRate.cost. by rewrite rate_is_rate_with_columns.
Qed.

Lemma first_rate_with_columns rs row cols :
  Forall (fun rate => Forall ignores_columns (PlanRate.conditions rate)) rs ->
  fst (PricePlan.first_rate rs (with_columns cols row))
  = fst (PricePlan.first_rate rs row).
Proof.
  induction 1 as [|rate rest Hrate _ IH]; [done|].
  by rewrite !first_rate_cons, rate_is_rate_with_columns, IH.
Qed.

(** Tier resolution does not depend on the plan columns of the row. *)
Lemma match_rate_with_columns plan row cols :
  plan_ignores_columns plan ->
  fst (PricePlan.match_rate plan (with_columns cols row))
  = fst (PricePlan.match_rate plan row).
Proof.
  intros H. rewrite !match_rate_fst. by apply first_rate_with_columns.
Qed.

Lemma matched_rate_ignores_columns plan row rate :
  plan_ignores_columns plan ->
  fst (PricePlan.match_rate plan row) = Some rate ->
  Forall ignores_columns (PlanRate.conditions rate).
Proof.
  intros Hplan Hrate. rewrite match_rate_fst in Hrate.
  apply first_rate_in in Hrate.
  unfold plan_ignores_columns in Hplan. rewrite Forall_forall in Hplan.
  apply Hplan. by apply list_elem_of_In.
Qed.

(** Without a matching tier, reading the [name] of [None] raises. *)
Lemma annotate_none plan row :
  fst (PricePlan.match_rate plan row) = None ->
  fst (annotate plan row) = Raise AttributeError.
Proof.
  intros H. unfold annotate. rewrite pbind_fst. cbn [lift fst]. rewrite H.
  by rewrite pbind_fst.
Qed.

(** With a matching tier, both columns are filled in from it. *)
Lemma annotate_some plan row rate :
  plan_ignores_columns plan ->
  fst (PricePlan.match_rate plan row) = Some rate ->
  fst (annotate plan row)
  = Ok (set_column (PricePlan.name plan +:+ " Cost")
          (VDec (fst (PlanRate.cost rate row)))
          (set_column (PricePlan.name plan +:+ " Rate")
             (VStr (PlanRate.name rate)) row)).
Proof.
  intros Hplan Hrate. unfold annotate.
  rewrite pbind_fst. cbn [lift fst]. rewrite Hrate.
  rewrite pbind_fst. cbn [ok fst]. rewrite pbind_fst. cbn [lift ok fst].
  change (set_column (PricePlan.name plan +:+ " Rate") (VStr (PlanRate.name rate)) row)
    with (with_columns (<[PricePlan.name plan +:+ " Rate" := VStr (PlanRate.name rate)]>
                          (columns row)) row).
  assert (Hrate' : fst (PricePlan.match_rate plan
             (with_columns (<[PricePlan.name plan +:+ " Rate" := VStr (PlanRate.name rate)]>
                              (columns row)) row)) = Some rate)
    by (by rewrite match_rate_with_columns).
  rewrite (plan_cost_some _ _ _ Hrate').
  rewrite rate_cost_with_columns; [done|].
  by apply (matched_rate_ignores_columns plan row).
Qed.




End Columns.

(** * Readings from January to May *)

Section Spring.

Import Arrow.

Lemma summer_days_spring row :
  valid (Timestamp row) = true ->
  month (Timestamp row) <= 5 ->
  summer_days row = false.
Proof.
  intros Hv Hin. unfold summer_days. rewrite is_between_floor_day by exact Hv.
  apply valid_bounds in Hv.
  destruct Hv as (Hy & Hmo & Hd & Hh & Hmi & Hs & Hus).
  unfold timestamp, toordinal;
    cbn [year month day hour minute second microsecond
         replace_month_day floor_day ceil_day].
  unfold days_before_month, days_in_month in *.
  set (o := days_before_year _).
  apply andb_false_iff. left. apply Z.leb_gt.
  destruct (month_cases _ Hmo) as
    [Hm|[Hm|[Hm|[Hm|[Hm|[Hm|[Hm|[Hm|[Hm|[Hm|[Hm|Hm]]]]]]]]]]];
    rewrite Hm in *; try lia; simpl in *; destruct (is_leap _); simpl in *; lia.
Qed.

(** D1 has a tier for every reading: its two thresholds are complementary. *)
Lemma d1_always_matches row :
  exists rate, fst (PricePlan.match_rate plan_D1 row) = Some rate.
Proof.
  rewrite match_rate_fst. unfold plan_D1. cbn [PricePlan.rates].
  rewrite first_rate_cons, rate_is_rate_quiet. cbn [PlanRate.conditions forallb RateCondition.match_ fst].
  destruct (le_17 row) eqn:Hle; [by eexists|]. cbn [andb].
  rewrite first_rate_cons, rate_is_rate_quiet. cbn [PlanRate.conditions forallb RateCondition.match_ fst].
  assert (gt_17 row = true) as ->; [|by eexists].
  unfold le_17, Decimal.le in Hle. unfold gt_17, Decimal.gt.
  by destruct (Decimal.cmp _ _).
Qed.

(** D1.2 has no tier for a reading from January to May. *)
Lemma d1_2_no_tier_in_spring row :
  valid (Timestamp row) = true ->
  month (Timestamp row) <= 5 ->
  fst (PricePlan.match_rate plan_D1_2 row) = None.
Proof.
  intros Hv Hm. rewrite match_rate_fst. unfold plan_D1_2. cbn [PricePlan.rates].
  rewrite !first_rate_cons, !rate_is_rate_quiet.
  cbn [PlanRate.conditions forallb RateCondition.match_ fst cond_summer cond_winter].
  by rewrite (summer_days_spring row Hv Hm), (winter_days_spring row Hv Hm).
Qed.

(** The run of a meter whose first reading falls in January to May ends in
    [AttributeError]. *)
Lemma spring_reading_raises r rest :
  valid (rd_timestamp r) = true ->
  month (rd_timestamp r) <= 5 ->
  fst (process_meter plans (r :: rest)) = Raise AttributeError.
Proof.
  intros Hv Hm. unfold process_meter. cbn [meter_loop].
  destruct (next_tally _ zero r) as [ts1 cumulative].
  rewrite pbind_fst. unfold plans. cbn [annotate_all]. rewrite pbind_fst.
  set (row := mkRow _ _ _ _ _ _).
  destruct (d1_always_matches row) as [rate Hrate].
  rewrite (annotate_some plan_D1 row rate); [|by repeat constructor|exact Hrate].
  rewrite pbind_fst, annotate_none; [done|].
  by apply d1_2_no_tier_in_spring.
Qed.

End Spring.


(** C1: a reading no tier of D1.2 matches, at midnight of March 1, 2022.
    [match_rate] prints its lines and returns [None], and [cost] is
    [Decimal('0.0')]; but the plan loop reads the [name] of that [None]:
    the run of the meter, and with it the whole run, ends in
    [AttributeError].  So it is for every plan without a matching tier, and
    for every meter whose first reading falls in January to May. *)
Theorem no_matching_tier_raises :
  PricePlan.match_rate plan_D1_2 march_row
  = (None,
     [ CouldNotFindRate "D1.2" march_row;
       NoMatchFor "Timestamp" "06/01 <= day <= 10/31";
       NoMatchFor "Timestamp" "06/01 <= day <= 10/31";
       NoMatchFor "Timestamp" "11/01 <= day <= 5/31";
       NoMatchFor "Timestamp" "11/01 <= day <= 5/31" ])
  /\ fst (PricePlan.cost plan_D1_2 march_row) = zero
  /\ fst (process_meter plans [march_reading]) = Raise AttributeError
  /\ fst (process_all plans [[march_reading]; [reading_at 2021 7 1 12 0 (D 25 (-1))]])
     = Raise AttributeError
  /\ (forall plan row,
        fst (PricePlan.match_rate plan row) = None ->
        fst (annotate plan row) = Raise AttributeError)
  /\ (forall r rest,
        Arrow.valid (rd_timestamp r) = true ->
        Arrow.month (rd_timestamp r) <= 5 ->
        fst (process_meter plans (r :: rest)) = Raise AttributeError).
Proof.
  split; [reflexivity|]. split; [reflexivity|].
  split; [vm_compute; reflexivity|]. split; [vm_compute; reflexivity|].
  split; [apply annotate_none | apply spring_reading_raises].
Qed.

Lemma no_matching_tier_raises_witness :
  fst (PricePlan.match_rate plan_D1_2 march_row) = None
  /\ fst (annotate plan_D1_2 march_row) = Raise AttributeError.
Proof.
  split; [reflexivity|].
  apply no_matching_tier_raises. reflexivity.
Defined.

(** * Further properties *)

(** ** Loading and grouping *)

Section Loading.

Context {V : Type}.
Implicit Types d : Dict V.

Lemma dict_get_set_eq key v d : dict_get key (dict_set key v d) = Some v.
Proof.
  induction d as [|[k v0] rest IH]; simpl.
  - by rewrite String.eqb_refl.
  - destruct (String.eqb k key) eqn:Hk; simpl; rewrite Hk; [done | exact IH].
Qed.

Lemma dict_get_set_ne key key' v d :
  key <> key' -> dict_get key' (dict_set key v d) = dict_get key' d.
Proof.
  intros Hne. induction d as [|[k v0] rest IH]; simpl.
  - by apply String.eqb_neq in Hne as ->.
  - destruct (String.eqb k key) eqn:Hk; simpl.
    + apply String.eqb_eq in Hk as ->. by apply String.eqb_neq in Hne as ->.
    + by rewrite IH.
Qed.

Lemma dict_set_set key v v0 d : dict_set key v (dict_set key v0 d) = dict_set key v d.
Proof.
  induction d as [|[k v1] rest IH]; simpl.
  - by rewrite String.eqb_refl.
  - destruct (String.eqb k key) eqn:Hk; simpl; rewrite Hk; [done | by rewrite IH].
Qed.

(** Setting a key replaces its item where it stands, or adds an item at the
    end. *)
Lemma dict_set_split key v d :
  match dict_get key d with
  | Some v0 =>
      exists before after,
        d = before ++ (key, v0) :: after
        /\ dict_set key v d = before ++ (key, v) :: after
  | None => dict_set key v d = d ++ [(key, v)]
  end.
Proof.
  induction d as [|[k v1] rest IH]; simpl; [done|].
  destruct (String.eqb k key) eqn:Hk.
  - apply String.eqb_eq in Hk as ->. by exists [], rest.
  - destruct (dict_get key rest) as [v0|].
    + destruct IH as (before & after & -> & ->).
      by exists ((k, v1) :: before), after.
    + by rewrite IH.
Qed.

End Loading.

Section Grouping.

Implicit Types data : Dict (Dict (list Reading)).

(** One step of the loading loop puts the reading at the end of the list of
    its account and meter. *)
Lemma load_step_eq data r :
  load_step data r
  = dict_set (rd_account r)
      (dict_set (rd_meter r)
         (default [] (group_of (rd_account r) (rd_meter r) data) ++ [r])
         (default [] (dict_get (rd_account r) data)))
      data.
Proof.
  unfold load_step, group_of, dict_mem.
  destruct (dict_get (rd_account r) data) as [meters|] eqn:Hacct; simpl.
  - rewrite Hacct; simpl.
    destruct (dict_get (rd_meter r) meters) as [g|] eqn:Hmeter; simpl.
    + by rewrite Hmeter.
    + by rewrite dict_get_set_eq, dict_set_set.
  - rewrite dict_get_set_eq; simpl. rewrite !String.eqb_refl; simpl.
    by rewrite dict_set_set.
Qed.

Lemma group_of_load_step data r acct meter :
  group_of acct meter (load_step data r)
  = if String.eqb (rd_account r) acct && String.eqb (rd_meter r) meter
    then Some (default [] (group_of acct meter data) ++ [r])
    else group_of acct meter data.
Proof.
  rewrite load_step_eq. unfold group_of at 1.
  destruct (String.eqb_spec (rd_account r) acct) as [<-|Hacct]; simpl.
  - rewrite dict_get_set_eq.
    destruct (String.eqb_spec (rd_meter r) meter) as [<-|Hmeter].
    + by rewrite dict_get_set_eq.
    + rewrite dict_get_set_ne by done. unfold group_of.
      by destruct (dict_get (rd_account r) data).
  - by rewrite dict_get_set_ne.
Qed.

Lemma group_of_fold rs : forall data acct meter,
  group_of acct meter (fold_left load_step rs data)
  = match group_of acct meter data,
          List.filter (fun r => String.eqb (rd_account r) acct
                                && String.eqb (rd_meter r) meter) rs with
    | None, [] => None
    | g, found => Some (default [] g ++ found)
    end.
Proof.
  induction rs as [|r rest IH]; intros data acct meter; simpl.
  - destruct (group_of acct meter data); simpl; [by rewrite app_nil_r | done].
  - rewrite IH, group_of_load_step.
    destruct (String.eqb (rd_account r) acct && String.eqb (rd_meter r) meter);
      [|done].
    destruct (group_of acct meter data) as [g|]; unfold default; simpl;
      [by rewrite <- app_assoc | done].
Qed.

End Grouping.

Lemma group_of_load rs acct meter :
  group_of acct meter (load rs)
  = match List.filter (fun r => String.eqb (rd_account r) acct
                                && String.eqb (rd_meter r) meter) rs with
    | [] => None
    | found => Some found
    end.
Proof.
  unfold load. rewrite group_of_fold. simpl.
  by destruct (List.filter _ rs).
Qed.

(** X1: after loading, the list of an account and meter holds exactly the
    readings of that account and meter, in the order of the input; an account
    and meter without readings has no list. *)
Theorem load_groups_by_account_and_meter rs acct meter :
  group_of acct meter (load rs)
  = match List.filter (fun r => String.eqb (rd_account r) acct
                                && String.eqb (rd_meter r) meter) rs with
    | [] => None
    | found => Some found
    end.
Proof. apply group_of_load. Qed.

Section Keys.

Context {V : Type}.
Implicit Types d : Dict V.

Lemma dict_get_in key v d : dict_get key d = Some v -> In (key, v) d.
Proof.
  induction d as [|[k v0] rest IH]; simpl; [done|].
  destruct (String.eqb_spec k key) as [->|_].
  - intros [= ->]. by left.
  - intros H. right. by apply IH.
Qed.

Lemma dict_get_none key d : dict_get key d = None -> ~ In key (map fst d).
Proof.
  induction d as [|[k v0] rest IH]; simpl; [tauto|].
  destruct (String.eqb_spec k key) as [->|Hne]; [done|].
  intros H [Hk|Hin]; [done | by apply IH].
Qed.

(** With distinct keys, an item of the dict is what [dict_get] finds. *)
Lemma dict_get_item key v d :
  List.NoDup (map fst d) -> In (key, v) d -> dict_get key d = Some v.
Proof.
  induction d as [|[k v0] rest IH]; simpl; [done|].
  intros Hnd [Hhere|Hin].
  - injection Hhere as -> ->. by rewrite String.eqb_refl.
  - inversion Hnd as [|? ? Hk Hrest]; subst.
    destruct (String.eqb_spec k key) as [->|_].
    + exfalso. apply Hk. change key with (fst (key, v)). by apply in_map.
    + by apply IH.
Qed.

Lemma dict_set_keys key v d :
  map fst (dict_set key v d)
  = if dict_mem key d then map fst d else map fst d ++ [key].
Proof.
  unfold dict_mem. pose proof (dict_set_split key v d) as H.
  destruct (dict_get key d) as [v0|].
  - destruct H as (before & after & -> & ->). by rewrite !map_app.
  - rewrite H, map_app. done.
Qed.

Lemma dict_set_keys_distinct key v d :
  List.NoDup (map fst d) -> List.NoDup (map fst (dict_set key v d)).
Proof.
  intros Hnd. rewrite dict_set_keys. unfold dict_mem.
  destruct (dict_get key d) eqn:Hget; [done|].
  apply dict_get_none in Hget.
  apply NoDup_ListNoDup, NoDup_app. repeat split.
  - by apply NoDup_ListNoDup.
  - intros k Hk ->%list_elem_of_singleton. by apply Hget, list_elem_of_In.
  - apply NoDup_singleton.
Qed.

Lemma dict_set_Forall (P : V -> Prop) key v d :
  Forall (fun item => P (snd item)) d -> P v ->
  Forall (fun item => P (snd item)) (dict_set key v d).
Proof.
  intros Hd Hv. induction d as [|[k v0] rest IH]; simpl.
  - by constructor.
  - apply Forall_cons in Hd as [H0 Hrest].
    destruct (String.eqb k key); constructor; auto.
Qed.

End Keys.

Section Groups.

Implicit Types data : Dict (Dict (list Reading)).

Lemma load_step_keys_distinct data r :
  keys_distinct data -> keys_distinct (load_step data r).
Proof.
  intros [Houter Hinner]. rewrite load_step_eq. split.
  - by apply dict_set_keys_distinct.
  - apply (dict_set_Forall (fun meters => List.NoDup (map fst meters))); [done|].
    apply dict_set_keys_distinct.
    destruct (dict_get (rd_account r) data) as [meters|] eqn:Hget; simpl.
    + apply dict_get_in in Hget. rewrite Forall_forall in Hinner.
      by apply (Hinner _ (proj2 (list_elem_of_In _ _) Hget)).
    + constructor.
Qed.

Lemma load_keys_distinct rs : keys_distinct (load rs).
Proof.
  unfold load.
  assert (H : forall data, keys_distinct data ->
                keys_distinct (fold_left load_step rs data)).
  { induction rs as [|r rest IH]; intros data Hd; simpl; [done|].
    by apply IH, load_step_keys_distinct. }
  apply H. split; constructor.
Qed.

Lemma groups_in data g :
  In g (groups data) ->
  exists acct meters meter, In (acct, meters) data /\ In (meter, g) meters.
Proof.
  unfold groups. rewrite in_flat_map. intros ([acct meters] & Hitem & Hg).
  simpl in Hg. apply in_map_iff in Hg as ([meter g'] & <- & Hmeter).
  by exists acct, meters, meter.
Qed.

Lemma concat_meters_set meter r (meters : Dict (list Reading)) :
  Permutation
    (concat (map snd (dict_set meter (default [] (dict_get meter meters) ++ [r]) meters)))
    (concat (map snd meters) ++ [r]).
Proof.
  pose proof (dict_set_split meter (default [] (dict_get meter meters) ++ [r]) meters) as H.
  destruct (dict_get meter meters) as [g|]; unfold default in *; simpl in *.
  - destruct H as (before & after & -> & ->).
    rewrite !map_app, !concat_app. simpl. rewrite <- !app_assoc.
    apply Permutation_app_head, Permutation_app_head, Permutation_app_comm.
  - rewrite H, map_app, concat_app. simpl. by rewrite ?app_nil_r.
Qed.

Lemma concat_groups_load_step data r :
  Permutation (concat (groups (load_step data r))) (concat (groups data) ++ [r]).
Proof.
  rewrite load_step_eq. unfold group_of.
  set (acct := rd_account r). set (meter := rd_meter r).
  pose proof (dict_set_split acct
    (dict_set meter
       (default [] match dict_get acct data with
                   | Some meters => dict_get meter meters
                   | None => None
                   end ++ [r])
       (default [] (dict_get acct data))) data) as H.
  destruct (dict_get acct data) as [meters|]; unfold default in *; simpl in *.
  - destruct H as (before & after & -> & ->).
    unfold groups. rewrite !flat_map_app, !concat_app. simpl.
    rewrite !concat_app, <- !app_assoc.
    apply Permutation_app_head.
    rewrite (concat_meters_set meter r meters), <- app_assoc.
    apply Permutation_app_head, Permutation_app_comm.
  - rewrite H. unfold groups. rewrite flat_map_app, concat_app. simpl.
    by rewrite ?app_nil_r.
Qed.

Lemma concat_groups_fold rs : forall data,
  Permutation (concat (groups (fold_left load_step rs data)))
              (concat (groups data) ++ rs).
Proof.
  induction rs as [|r rest IH]; intros data; simpl.
  - by rewrite app_nil_r.
  - rewrite IH, concat_groups_load_step, <- app_assoc. done.
Qed.

Lemma load_keeps_readings_perm rs : Permutation (concat (groups (load rs))) rs.
Proof. unfold load. by rewrite concat_groups_fold. Qed.

End Groups.

(** X2: every list the script visits after loading is the non-empty list of
    all readings of one account and meter, in input order. *)
Theorem groups_partition_by_meter rs :
  Forall (fun g =>
            g <> []
            /\ exists acct meter,
                 g = List.filter (fun r => String.eqb (rd_account r) acct
                                           && String.eqb (rd_meter r) meter) rs)
         (groups (load rs)).
Proof.
  apply Forall_forall. intros g Hg%list_elem_of_In.
  apply groups_in in Hg as (acct & meters & meter & Hacct & Hmeter).
  destruct (load_keys_distinct rs) as [Houter Hinner].
  assert (Hgroup : group_of acct meter (load rs) = Some g).
  { unfold group_of. rewrite (dict_get_item acct meters) by done.
    apply dict_get_item; [|done].
    rewrite Forall_forall in Hinner.
    by apply (Hinner _ (proj2 (list_elem_of_In _ _) Hacct)). }
  rewrite group_of_load in Hgroup.
  destruct (List.filter _ rs) as [|r found] eqn:Hfilter; [done|].
  injection Hgroup as <-. split; [done|]. by exists acct, meter.
Qed.

(** X3: loading loses no reading and invents none: the lists visited, put
    end to end, are a rearrangement of the input. *)
Theorem load_keeps_readings rs : Permutation (concat (groups (load rs))) rs.
Proof. apply load_keeps_readings_perm. Qed.

(** ** Sorting *)

Section Sorting.

Local Abbreviation time r := (Arrow.timestamp (rd_timestamp r)).

Lemma insert_sorted_perm r rs : Permutation (insert_sorted r rs) (r :: rs).
Proof.
  induction rs as [|x rest IH]; simpl; [done|].
  destruct (time x <? time r); [|done].
  rewrite IH. apply perm_swap.
Qed.

Lemma insert_sorted_chronological r rs :
  chronological rs -> chronological (insert_sorted r rs).
Proof.
  unfold chronological. induction 1 as [|x rest Hrest IH Hx]; simpl.
  - repeat constructor.
  - destruct (Z.ltb_spec (time x) (time r)) as [Hlt|Hge].
    + constructor; [exact IH|].
      rewrite (insert_sorted_perm r rest). constructor; [lia | exact Hx].
    + constructor; [by constructor|].
      constructor; [lia|].
      eapply Forall_impl; [exact Hx|]. intros y Hy. simpl in Hy. lia.
Qed.

(** Readings with another timestamp do not disturb the order of those with
    a given one. *)
Lemma insert_sorted_filter k r rs :
  List.filter (fun x => time x =? k) (insert_sorted r rs)
  = List.filter (fun x => time x =? k) (r :: rs).
Proof.
  induction rs as [|x rest IH]; [done|]. cbn [insert_sorted].
  destruct (Z.ltb_spec (time x) (time r)) as [Hlt|Hge]; [|done].
  cbn [List.filter] in *. rewrite IH.
  destruct (Z.eqb_spec (time r) k) as [Hr|Hr]; [|done].
  destruct (Z.eqb_spec (time x) k) as [Hx|Hx]; [lia | done].
Qed.

End Sorting.

(** X4: sorting a meter's readings rearranges them into chronological order
    and keeps readings with the same timestamp in their input order. *)
Theorem sorted_by_timestamp_stable rs :
  Permutation (sorted_by_timestamp rs) rs
  /\ chronological (sorted_by_timestamp rs)
  /\ forall k,
       List.filter (fun r => Arrow.timestamp (rd_timestamp r) =? k) (sorted_by_timestamp rs)
       = List.filter (fun r => Arrow.timestamp (rd_timestamp r) =? k) rs.
Proof.
  induction rs as [|r rest (Hperm & Hsorted & Hstable)]; simpl.
  - repeat split; [done | constructor].
  - split; [by rewrite insert_sorted_perm, Hperm|].
    split; [by apply insert_sorted_chronological|].
    intros k. rewrite insert_sorted_filter. simpl. by rewrite Hstable.
Qed.

(** X5: readings that are in chronological order already are left as they
    are. *)
Theorem sorted_by_timestamp_fixes_sorted rs :
  chronological rs -> sorted_by_timestamp rs = rs.
Proof.
  unfold chronological. induction 1 as [|x rest Hrest IH Hx]; simpl; [done|].
  rewrite IH. destruct rest as [|y rest']; simpl; [done|].
  apply Forall_cons in Hx as [Hxy _].
  destruct (Z.ltb_spec (Arrow.timestamp (rd_timestamp y))
                       (Arrow.timestamp (rd_timestamp x))); [lia | done].
Qed.

Lemma sorted_by_timestamp_fixes_sorted_witness :
  chronological three_readings
  /\ sorted_by_timestamp three_readings = three_readings.
Proof.
  assert (H : chronological three_readings).
  { unfold chronological, three_readings.
    repeat constructor; vm_compute; discriminate. }
  split; [exact H | exact (sorted_by_timestamp_fixes_sorted three_readings H)].
Defined.

(** ** Dates, timestamps and the daily tally *)

Section Dates.

Import Arrow.

Lemma days_before_year_succ y :
  days_before_year (y + 1) = days_before_year y + 365 + (if is_leap y then 1 else 0).
Proof.
  unfold days_before_year, is_leap.
  replace (y + 1 - 1) with y by lia.
  destruct (Z.eqb_spec (y mod 4) 0), (Z.eqb_spec (y mod 100) 0),
           (Z.eqb_spec (y mod 400) 0); simpl; Z.div_mod_to_equations; lia.
Qed.

Lemma days_before_year_mono y1 y2 :
  y1 <= y2 -> days_before_year y1 <= days_before_year y2.
Proof.
  intros H. unfold days_before_year. Z.div_mod_to_equations. lia.
Qed.

(** The day of the year of a well-formed date lies within the year. *)
Lemma day_of_year_bounds y m d :
  1 <= m <= 12 -> 1 <= d <= days_in_month y m ->
  1 <= days_before_month y m + d <= 365 + (if is_leap y then 1 else 0).
Proof.
  intros Hm Hd. unfold days_before_month, days_in_month in *.
  destruct (month_cases m Hm) as
    [->|[->|[->|[->|[->|[->|[->|[->|[->|[->|[->| ->]]]]]]]]]]];
    simpl in *; destruct (is_leap y); simpl in *; lia.
Qed.

Lemma day_of_year_mono y m1 d1 m2 d2 :
  1 <= m1 <= 12 -> 1 <= d1 <= days_in_month y m1 ->
  1 <= m2 <= 12 -> 1 <= d2 <= days_in_month y m2 ->
  m1 < m2 ->
  days_before_month y m1 + d1 < days_before_month y m2 + d2.
Proof.
  intros Hm1 Hd1 Hm2 Hd2 Hlt. unfold days_before_month, days_in_month in *.
  destruct (month_cases m1 Hm1) as
    [->|[->|[->|[->|[->|[->|[->|[->|[->|[->|[->| ->]]]]]]]]]]];
  destruct (month_cases m2 Hm2) as
    [->|[->|[->|[->|[->|[->|[->|[->|[->|[->|[->| ->]]]]]]]]]]];
    try lia; simpl in *; destruct (is_leap y); simpl in *; lia.
Qed.

(** A later calendar date has a larger ordinal. *)
Lemma toordinal_date_gt a b :
  valid a = true -> valid b = true ->
  date_gt (date a) (date b) = true -> toordinal b < toordinal a.
Proof.
  intros Ha%valid_bounds Hb%valid_bounds.
  destruct Ha as (_ & Hma & Hda & _), Hb as (_ & Hmb & Hdb & _).
  unfold date_gt, date, toordinal. cbn beta iota.
  repeat (rewrite orb_true_iff || rewrite andb_true_iff).
  rewrite !Z.ltb_lt, !Z.eqb_eq.
  intros [Hy|[Hy [Hm|[Hm Hd]]]].
  - pose proof (day_of_year_bounds _ _ _ Hma Hda).
    pose proof (day_of_year_bounds _ _ _ Hmb Hdb).
    pose proof (days_before_year_succ (year b)).
    pose proof (days_before_year_mono (year b + 1) (year a) ltac:(lia)). lia.
  - rewrite Hy. pose proof (day_of_year_mono (year b) _ _ _ _ Hmb Hdb Hma ltac:(by rewrite <- Hy) Hm). lia.
  - rewrite Hy, Hm. lia.
Qed.

(** Chronological order of timestamps is chronological order of dates. *)
Lemma timestamp_le_date a b :
  valid a = true -> valid b = true ->
  timestamp a <= timestamp b -> date_gt (date a) (date b) = false.
Proof.
  intros Ha Hb Hle. destruct (date_gt (date a) (date b)) eqn:Hgt; [|done].
  pose proof (toordinal_date_gt a b Ha Hb Hgt) as Hord.
  apply valid_bounds in Ha, Hb. unfold timestamp in Hle. lia.
Qed.

Lemma date_gt_irrefl d : date_gt d d = false.
Proof.
  destruct d as [[y m] n]. unfold date_gt.
  rewrite !Z.ltb_irrefl, !Z.eqb_refl. reflexivity.
Qed.

Lemma date_eqb_eq d1 d2 : date_eqb d1 d2 = true <-> d1 = d2.
Proof.
  destruct d1 as [[y1 m1] n1], d2 as [[y2 m2] n2]. unfold date_eqb.
  rewrite !andb_true_iff, !Z.eqb_eq. split.
  - by intros [[-> ->] ->].
  - by intros [= -> -> ->].
Qed.

(** Of two dates, when the first is not later than the second, the second
    is later exactly when the two differ. *)
Lemma date_gt_or_eq d1 d2 :
  date_gt d1 d2 = false -> date_gt d2 d1 = negb (date_eqb d2 d1).
Proof.
  destruct d1 as [[y1 m1] n1], d2 as [[y2 m2] n2]. unfold date_gt, date_eqb.
  intros H. apply eq_true_iff_eq.
  rewrite negb_true_iff, <- not_true_iff_false.
  apply not_true_iff_false in H.
  repeat (rewrite orb_true_iff in * || rewrite andb_true_iff in *).
  rewrite !Z.ltb_lt, !Z.eqb_eq in *. lia.
Qed.

End Dates.

Section TallyFacts.

Import Arrow.

Lemma tally_by_change_sorted rs : forall prev day_tally,
  valid prev = true ->
  Forall (fun r => valid (rd_timestamp r) = true) rs ->
  chronological (mkReading "" "" prev zero :: rs) ->
  tally_loop (date prev) day_tally rs = tally_by_change (date prev) day_tally rs.
Proof.
  induction rs as [|r rest IH]; intros prev day_tally Hprev Hvalid Hsorted; [done|].
  apply Forall_cons in Hvalid as [Hr Hrest].
  unfold chronological in Hsorted.
  apply StronglySorted_inv in Hsorted as [Htail Hhead].
  pose proof Hhead as Hhead'. apply Forall_cons in Hhead' as [Hle _]. simpl in Hle.
  pose proof (timestamp_le_date _ _ Hprev Hr Hle) as Hnot.
  pose proof (date_gt_or_eq _ _ Hnot) as Hgt.
  cbn [tally_loop tally_by_change]. unfold next_tally. rewrite Hgt.
  assert (Hnext : chronological (mkReading "" "" (rd_timestamp r) zero :: rest)).
  { apply StronglySorted_inv in Htail as [Hrest_sorted Hr_le].
    constructor; [exact Hrest_sorted | exact Hr_le]. }
  destruct (date_eqb (date (rd_timestamp r)) (date prev)) eqn:Heq; cbn [negb].
  - apply date_eqb_eq in Heq. rewrite <- Heq. f_equal. by apply IH.
  - f_equal. by apply IH.
Qed.

(** What the loop hands to the rest of the readings once a reading dated
    after everything seen so far arrives. *)
Lemma tally_loop_later r2 rs2 rs1 : forall ts day_tally,
  date_gt (date (rd_timestamp r2)) ts = true ->
  Forall (fun r => date_gt (date (rd_timestamp r2)) (date (rd_timestamp r)) = true) rs1 ->
  tally_loop ts day_tally (rs1 ++ r2 :: rs2)
  = tally_loop ts day_tally rs1
    ++ tally_loop (date (rd_timestamp r2)) zero (r2 :: rs2).
Proof.
  induction rs1 as [|r rest IH]; intros ts day_tally Hts Hall.
  - cbn [app tally_loop]. unfold next_tally.
    by rewrite Hts, date_gt_irrefl.
  - apply Forall_cons in Hall as [Hr Hrest].
    cbn [app tally_loop]. unfold next_tally.
    destruct (date_gt (date (rd_timestamp r)) ts); cbn [app]; f_equal; by apply IH.
Qed.

End TallyFacts.

(** X6: for chronological readings with well-formed timestamps, the tally
    restarts from zero exactly at a reading whose date differs from the date
    of the reading before it, and otherwise goes on from that reading's
    cumulative value. *)
Theorem daily_cumulative_restarts_on_date_change (first : Reading) rest :
  chronological (first :: rest) ->
  Forall (fun r => Arrow.valid (rd_timestamp r) = true) (first :: rest) ->
  daily_cumulative (first :: rest)
  = tally_by_change (Arrow.date (rd_timestamp first)) zero (first :: rest).
Proof.
  intros Hsorted Hvalid. unfold daily_cumulative.
  pose proof Hvalid as Hvalid'. apply Forall_cons in Hvalid' as [Hfirst _].
  apply tally_by_change_sorted; [done..|].
  unfold chronological in *. constructor; [exact Hsorted|].
  constructor; [simpl; lia|].
  apply StronglySorted_inv in Hsorted as [_ Hhead]. exact Hhead.
Qed.

Lemma daily_cumulative_restarts_on_date_change_witness :
  chronological three_readings
  /\ Forall (fun r => Arrow.valid (rd_timestamp r) = true) three_readings
  /\ daily_cumulative three_readings
     = tally_by_change (Arrow.date (rd_timestamp (reading_at 2021 7 1 0 0 (D 10 0)))) zero
         three_readings.
Proof.
  assert (Hsorted : chronological three_readings).
  { unfold chronological, three_readings.
    repeat constructor; vm_compute; discriminate. }
  assert (Hvalid : Forall (fun r => Arrow.valid (rd_timestamp r) = true) three_readings)
    by (repeat constructor).
  split; [exact Hsorted|]. split; [exact Hvalid|].
  exact (daily_cumulative_restarts_on_date_change _ _ Hsorted Hvalid).
Defined.

(** X7: the days of a meter are tallied independently: when a reading is
    dated after all the readings before it, the cumulative values from it on
    are those of a run that starts with it. *)
Theorem daily_cumulative_days_independent rs1 r2 rs2 :
  Forall (fun r => Arrow.date_gt (Arrow.date (rd_timestamp r2))
                                 (Arrow.date (rd_timestamp r)) = true) rs1 ->
  daily_cumulative (rs1 ++ r2 :: rs2)
  = daily_cumulative rs1 ++ daily_cumulative (r2 :: rs2).
Proof.
  intros Hall. destruct rs1 as [|first rest]; [done|].
  unfold daily_cumulative. cbn [app].
  change (first :: rest ++ r2 :: rs2) with ((first :: rest) ++ r2 :: rs2).
  apply tally_loop_later; [|exact Hall].
  by apply Forall_cons in Hall as [Hfirst _].
Qed.

Lemma daily_cumulative_days_independent_witness :
  Forall (fun r => Arrow.date_gt (Arrow.date (rd_timestamp (reading_at 2021 7 2 0 0 (D 3 0))))
                                 (Arrow.date (rd_timestamp r)) = true)
         [reading_at 2021 7 1 0 0 (D 10 0); reading_at 2021 7 1 1 0 (D 5 0)]
  /\ daily_cumulative three_readings
     = daily_cumulative [reading_at 2021 7 1 0 0 (D 10 0); reading_at 2021 7 1 1 0 (D 5 0)]
       ++ daily_cumulative [reading_at 2021 7 2 0 0 (D 3 0)].
Proof.
  assert (H : Forall (fun r => Arrow.date_gt
                                 (Arrow.date (rd_timestamp (reading_at 2021 7 2 0 0 (D 3 0))))
                                 (Arrow.date (rd_timestamp r)) = true)
                [reading_at 2021 7 1 0 0 (D 10 0); reading_at 2021 7 1 1 0 (D 5 0)])
    by (repeat constructor).
  split; [exact H|].
  exact (daily_cumulative_days_independent
           [reading_at 2021 7 1 0 0 (D 10 0); reading_at 2021 7 1 1 0 (D 5 0)]
           (reading_at 2021 7 2 0 0 (D 3 0)) [] H).
Defined.

(** ** The windows and tiers of the configured plans *)

Ltac bool_to_prop :=
  apply eq_true_iff_eq;
  repeat (rewrite orb_true_iff || rewrite andb_true_iff);
  rewrite ?Z.leb_le, ?Z.eqb_eq, ?Z.ltb_lt.

Ltac split_comparisons :=
  repeat match goal with
         | |- context [?a <=? ?b] => destruct (Z.leb_spec a b)
         | |- context [?a =? ?b] => destruct (Z.eqb_spec a b)
         end;
  cbn [andb orb negb]; try reflexivity; try lia.

Lemma summer_days_formula row :
  Arrow.valid (Timestamp row) = true ->
  summer_days row
  = ((Arrow.month (Timestamp row) =? 6) && (Arrow.day (Timestamp row) =? 1)
     && Arrow.midnight (Timestamp row))
    || ((Arrow.month (Timestamp row) =? 6) && (2 <=? Arrow.day (Timestamp row)))
    || ((7 <=? Arrow.month (Timestamp row)) && (Arrow.month (Timestamp row) <=? 10)).
Proof.
  intros Hv. pose proof (valid_bounds _ Hv) as (Hy & Hmo & Hd & Ht).
  destruct (Z_le_gt_dec (Arrow.month (Timestamp row)) 5) as [Hspring|Hlate].
  { rewrite (summer_days_spring row Hv Hspring). symmetry. split_comparisons. }
  destruct (Z.eq_dec (Arrow.month (Timestamp row)) 6) as [Hjune|Hnot].
  { destruct (Z.eq_dec (Arrow.day (Timestamp row)) 1) as [Hfirst|Hnext].
    - rewrite (summer_days_june_first row Hv Hjune Hfirst), Hjune, Hfirst.
      cbn. by rewrite !orb_false_r.
    - rewrite (summer_days_inside row Hv) by lia. symmetry. rewrite Hjune.
      cbn [Z.eqb Pos.eqb andb]. split_comparisons. }
  destruct (Z_le_gt_dec (Arrow.month (Timestamp row)) 10) as [Hin|Hout].
  { rewrite (summer_days_inside row Hv) by lia. symmetry. split_comparisons.
    all: try by rewrite ?orb_true_r. }
  transitivity false; [|symmetry; split_comparisons].
  unfold summer_days. rewrite (is_between_floor_day _ _ _ Hv).
  unfold Arrow.timestamp, Arrow.toordinal;
    cbn [Arrow.year Arrow.month Arrow.day Arrow.hour Arrow.minute Arrow.second
         Arrow.microsecond Arrow.replace_month_day Arrow.floor_day Arrow.ceil_day].
  unfold Arrow.days_before_month, Arrow.days_in_month in *.
  set (o := Arrow.days_before_year _).
  apply andb_false_iff. right. apply Z.leb_gt.
  assert (Hm : Arrow.month (Timestamp row) = 11 \/ Arrow.month (Timestamp row) = 12) by lia.
  destruct Hm as [Hm|Hm]; rewrite Hm in *; simpl in *;
    destruct (Arrow.is_leap _); simpl in *; lia.
Qed.

Lemma winter_days_formula row :
  Arrow.valid (Timestamp row) = true ->
  winter_days row
  = ((Arrow.month (Timestamp row) =? 11) && (Arrow.day (Timestamp row) =? 1)
     && Arrow.midnight (Timestamp row))
    || ((Arrow.month (Timestamp row) =? 11) && (2 <=? Arrow.day (Timestamp row)))
    || (Arrow.month (Timestamp row) =? 12).
Proof.
  intros Hv. pose proof (valid_bounds _ Hv) as (Hy & Hmo & Hd & Ht).
  destruct (Z.eq_dec (Arrow.month (Timestamp row)) 11) as [Hnov|Hnot].
  { destruct (Z.eq_dec (Arrow.day (Timestamp row)) 1) as [Hfirst|Hnext].
    - rewrite (winter_days_november_first row Hv Hnov Hfirst), Hnov, Hfirst.
      cbn. by rewrite !orb_false_r.
    - transitivity true; [|symmetry; rewrite Hnov; cbn [Z.eqb Pos.eqb andb];
                            split_comparisons; try by rewrite ?orb_true_r].
      unfold winter_days; rewrite (is_between_floor_day _ _ _ Hv);
      unfold Arrow.timestamp, Arrow.toordinal;
        cbn [Arrow.year Arrow.month Arrow.day Arrow.hour Arrow.minute Arrow.second
             Arrow.microsecond Arrow.replace_month_day Arrow.floor_day
             Arrow.ceil_day Arrow.shift_years].
      rewrite Hnov in *.
      unfold Arrow.days_before_month, Arrow.days_in_month in *.
      rewrite (days_before_year_succ (Arrow.year (Timestamp row))).
      simpl (2 <? _) in *. simpl (Z.min _ _).
      destruct (Arrow.is_leap (Arrow.year (Timestamp row))),
               (Arrow.is_leap (Arrow.year (Timestamp row) + 1)); simpl in *.
      all: rewrite andb_true_iff, !Z.leb_le; lia. }
  destruct (Z.eq_dec (Arrow.month (Timestamp row)) 12) as [Hdec|Hnot'].
  { transitivity true; [|symmetry; rewrite Hdec; cbn; by rewrite ?orb_true_r].
    unfold winter_days; rewrite (is_between_floor_day _ _ _ Hv);
      unfold Arrow.timestamp, Arrow.toordinal;
      cbn [Arrow.year Arrow.month Arrow.day Arrow.hour Arrow.minute Arrow.second
           Arrow.microsecond Arrow.replace_month_day Arrow.floor_day
           Arrow.ceil_day Arrow.shift_years].
    rewrite Hdec in *.
    unfold Arrow.days_before_month, Arrow.days_in_month in *.
    rewrite (days_before_year_succ (Arrow.year (Timestamp row))).
    simpl (2 <? _) in *. simpl (Z.min _ _).
    destruct (Arrow.is_leap (Arrow.year (Timestamp row))),
             (Arrow.is_leap (Arrow.year (Timestamp row) + 1)); simpl in *.
    all: rewrite andb_true_iff, !Z.leb_le; lia. }
  transitivity false; [|symmetry; split_comparisons].
  destruct (Z_le_gt_dec (Arrow.month (Timestamp row)) 5) as [Hspring|Hlate].
  { by apply winter_days_spring. }
  unfold winter_days; rewrite (is_between_floor_day _ _ _ Hv);
      unfold Arrow.timestamp, Arrow.toordinal;
    cbn [Arrow.year Arrow.month Arrow.day Arrow.hour Arrow.minute Arrow.second
         Arrow.microsecond Arrow.replace_month_day Arrow.floor_day
         Arrow.ceil_day Arrow.shift_years].
  unfold Arrow.days_before_month, Arrow.days_in_month in *.
  set (o := Arrow.days_before_year (Arrow.year (Timestamp row))).
  apply andb_false_iff. left. apply Z.leb_gt.
  destruct (month_cases _ Hmo) as
    [Hm|[Hm|[Hm|[Hm|[Hm|[Hm|[Hm|[Hm|[Hm|[Hm|[Hm|Hm]]]]]]]]]]];
    rewrite Hm in *; try lia; simpl in *; destruct (Arrow.is_leap _); simpl in *; lia.
Qed.

(** X8: the summer window of D1.2, for a well-formed timestamp, holds from
    June 2 to October 31 at every hour, on June 1 at 00:00:00 only, and at
    no other time. *)
Theorem summer_days_exact row :
  Arrow.valid (Timestamp row) = true ->
  summer_days row
  = ((Arrow.month (Timestamp row) =? 6) && (Arrow.day (Timestamp row) =? 1)
     && Arrow.midnight (Timestamp row))
    || ((Arrow.month (Timestamp row) =? 6) && (2 <=? Arrow.day (Timestamp row)))
    || ((7 <=? Arrow.month (Timestamp row)) && (Arrow.month (Timestamp row) <=? 10)).
Proof. apply summer_days_formula. Qed.

Lemma summer_days_exact_witness :
  Arrow.valid (Timestamp (row_at (Arrow.mk 2021 6 1 5 0 0 0) zero zero)) = true
  /\ summer_days (row_at (Arrow.mk 2021 6 1 5 0 0 0) zero zero) = false.
Proof.
  split; [reflexivity|].
  rewrite (summer_days_exact (row_at (Arrow.mk 2021 6 1 5 0 0 0) zero zero));
    reflexivity.
Defined.

(** X9: the winter window of D1.2, for a well-formed timestamp, holds from
    November 2 to December 31 at every hour, on November 1 at 00:00:00 only,
    and at no other time: never from January to October. *)
Theorem winter_days_exact row :
  Arrow.valid (Timestamp row) = true ->
  winter_days row
  = ((Arrow.month (Timestamp row) =? 11) && (Arrow.day (Timestamp row) =? 1)
     && Arrow.midnight (Timestamp row))
    || ((Arrow.month (Timestamp row) =? 11) && (2 <=? Arrow.day (Timestamp row)))
    || (Arrow.month (Timestamp row) =? 12).
Proof. apply winter_days_formula. Qed.

Lemma winter_days_exact_witness :
  Arrow.valid (Timestamp march_row) = true
  /\ winter_days march_row = false.
Proof.
  split; [reflexivity|].
  rewrite (winter_days_exact march_row); reflexivity.
Defined.

Section Classification.

Import Arrow.

Lemma weekday_bounds a : 0 <= weekday a <= 6.
Proof. unfold weekday. pose proof (Z.mod_pos_bound (toordinal a + 6) 7). lia. Qed.

Lemma le_17_or_gt_17 row : gt_17 row = negb (le_17 row).
Proof.
  unfold gt_17, le_17, Decimal.gt, Decimal.le. by destruct (Decimal.cmp _ _).
Qed.

End Classification.

Ltac decide_comparisons :=
  repeat match goal with
         | |- context [?a <=? ?b] =>
             first [ rewrite (proj2 (Z.leb_le a b)) by lia
                   | rewrite (proj2 (Z.leb_gt a b)) by lia ]
         end;
  cbn [andb orb negb]; reflexivity.

Ltac resolve_tiers :=
  rewrite match_rate_fst; cbn [PricePlan.rates plan_D1 plan_D1_2 plan_D1_9 plan_D1_8];
  rewrite !first_rate_cons, !rate_is_rate_quiet;
  cbn [fst PlanRate.conditions forallb RateCondition.match_
       cond_summer cond_winter cond_off_peak cond_on_peak cond_weekdays cond_weekend
       PricePlan.first_rate ret].

Section Tiers.

Local Open Scope string_scope.
Local Open Scope Z_scope.

Lemma d1_tier_name row :
  PlanRate.name <$> fst (PricePlan.match_rate plan_D1 row)
  = Some (if Qle_bool (Decimal.val (Daily_Cumulative row)) (17 # 1)
          then "First 17kWh" else "After 17kWh").
Proof.
  assert (Hle : le_17 row = Qle_bool (Decimal.val (Daily_Cumulative row)) (17 # 1)).
  { unfold le_17. apply eq_true_iff_eq.
    rewrite le_val, Qle_bool_iff, val_of_int. reflexivity. }
  rewrite <- Hle. resolve_tiers. rewrite le_17_or_gt_17.
  by destruct (le_17 row).
Qed.

Lemma d1_9_tier_name row :
  Arrow.valid (Timestamp row) = true ->
  PlanRate.name <$> fst (PricePlan.match_rate plan_D1_9 row)
  = Some (let h := Arrow.hour (Timestamp row) in
          if Arrow.weekday (Timestamp row) <=? 4
          then if ((7 <=? h) && (h <=? 14)) || ((19 <=? h) && (h <=? 22))
               then "Dynamic Mid-Peak"
               else if (15 <=? h) && (h <=? 18)
                    then "Dynamic On-Peak"
                    else "Dynamic Off-Peak Weekday"
          else "Dynamic Off-Peak Weekend").
Proof.
  intros Hv. pose proof (valid_bounds _ Hv) as (_ & _ & _ & Hh & _).
  pose proof (weekday_bounds (Timestamp row)) as Hw.
  resolve_tiers. rewrite !(hour_between_hours _ _ row Hv).
  unfold weekday_between. cbn zeta.
  assert (Hday : Arrow.weekday (Timestamp row) <= 4 \/ 5 <= Arrow.weekday (Timestamp row))
    by lia.
  assert (Hhour : Arrow.hour (Timestamp row) <= 6
                  \/ 7 <= Arrow.hour (Timestamp row) <= 14
                  \/ 15 <= Arrow.hour (Timestamp row) <= 18
                  \/ 19 <= Arrow.hour (Timestamp row) <= 22
                  \/ Arrow.hour (Timestamp row) = 23) by lia.
  destruct Hday, Hhour as [?|[?|[?|[?|?]]]]; decide_comparisons.
Qed.

Lemma d1_8_tier_name row :
  Arrow.valid (Timestamp row) = true ->
  PlanRate.name <$> fst (PricePlan.match_rate plan_D1_8 row)
  = Some (let h := Arrow.hour (Timestamp row) in
          if Arrow.weekday (Timestamp row) <=? 4
          then if (9 <=? h) && (h <=? 22)
               then "EV On-Peak"
               else "EV Off-Peak Weekday"
          else "EV Off-Peak Weekend").
Proof.
  intros Hv. pose proof (valid_bounds _ Hv) as (_ & _ & _ & Hh & _).
  pose proof (weekday_bounds (Timestamp row)) as Hw.
  resolve_tiers. rewrite !(hour_between_hours _ _ row Hv).
  unfold weekday_between. cbn zeta.
  assert (Hday : Arrow.weekday (Timestamp row) <= 4 \/ 5 <= Arrow.weekday (Timestamp row))
    by lia.
  assert (Hhour : Arrow.hour (Timestamp row) <= 8
                  \/ 9 <= Arrow.hour (Timestamp row) <= 22
                  \/ Arrow.hour (Timestamp row) = 23) by lia.
  destruct Hday, Hhour as [?|[?|?]]; decide_comparisons.
Qed.

Lemma d1_2_tier_name row :
  Arrow.valid (Timestamp row) = true ->
  PlanRate.name <$> fst (PricePlan.match_rate plan_D1_2 row)
  = (let h := Arrow.hour (Timestamp row) in
     let off_peak := (19 <=? h) || (h <=? 10) in
     if summer_days row
     then Some (if off_peak then "Time-of-Day Summer Off-Peak"
                else "Time-of-Day Summer On-Peak")
     else if winter_days row
          then Some (if off_peak then "Time-of-Day Winter Off-Peak"
                     else "Time-of-Day Winter On-Peak")
          else None).
Proof.
  intros Hv. pose proof (valid_bounds _ Hv) as (_ & _ & _ & Hh & _).
  resolve_tiers. unfold off_peak_hours. rewrite !(hour_between_hours _ _ row Hv).
  cbn zeta.
  assert (Hhour : Arrow.hour (Timestamp row) <= 10
                  \/ 11 <= Arrow.hour (Timestamp row) <= 18
                  \/ 19 <= Arrow.hour (Timestamp row)) by lia.
  destruct (summer_days row), (winter_days row); cbn [andb];
    destruct Hhour as [?|[?|?]]; decide_comparisons.
Qed.

(** X10: D1 has exactly one tier for every reading: "First 17kWh" when the
    cumulative usage of the day is at most 17, "After 17kWh" otherwise. *)
Theorem d1_tier row :
  PlanRate.name <$> fst (PricePlan.match_rate plan_D1 row)
  = Some (if Qle_bool (Decimal.val (Daily_Cumulative row)) (17 # 1)
          then "First 17kWh" else "After 17kWh").
Proof. apply d1_tier_name. Qed.

(** X11: D1.9 has a tier for every well-formed timestamp.  Monday to Friday it
    is "Dynamic Mid-Peak" in the hours 7 to 14 and 19 to 22, "Dynamic
    On-Peak" in the hours 15 to 18, and "Dynamic Off-Peak Weekday" in the
    hours 23 and 0 to 6; on Saturday and Sunday it is "Dynamic Off-Peak
    Weekend". *)
Theorem d1_9_tier row :
  Arrow.valid (Timestamp row) = true ->
  PlanRate.name <$> fst (PricePlan.match_rate plan_D1_9 row)
  = Some (let h := Arrow.hour (Timestamp row) in
          if Arrow.weekday (Timestamp row) <=? 4
          then if ((7 <=? h) && (h <=? 14)) || ((19 <=? h) && (h <=? 22))
               then "Dynamic Mid-Peak"
               else if (15 <=? h) && (h <=? 18)
                    then "Dynamic On-Peak"
                    else "Dynamic Off-Peak Weekday"
          else "Dynamic Off-Peak Weekend").
Proof. apply d1_9_tier_name. Qed.

Lemma d1_9_tier_witness :
  Arrow.valid (Timestamp row_2_5) = true
  /\ PlanRate.name <$> fst (PricePlan.match_rate plan_D1_9 row_2_5)
     = Some "Dynamic Mid-Peak".
Proof.
  split; [reflexivity|].
  rewrite (d1_9_tier row_2_5); reflexivity.
Defined.

(** X12: D1.8 has a tier for every well-formed timestamp.  Monday to Friday it
    is "EV On-Peak" in the hours 9 to 22 and "EV Off-Peak Weekday" in the
    hours 23 and 0 to 8; on Saturday and Sunday it is "EV Off-Peak
    Weekend". *)
Theorem d1_8_tier row :
  Arrow.valid (Timestamp row) = true ->
  PlanRate.name <$> fst (PricePlan.match_rate plan_D1_8 row)
  = Some (let h := Arrow.hour (Timestamp row) in
          if Arrow.weekday (Timestamp row) <=? 4
          then if (9 <=? h) && (h <=? 22)
               then "EV On-Peak"
               else "EV Off-Peak Weekday"
          else "EV Off-Peak Weekend").
Proof. apply d1_8_tier_name. Qed.

Lemma d1_8_tier_witness :
  Arrow.valid (Timestamp row_2_5) = true
  /\ PlanRate.name <$> fst (PricePlan.match_rate plan_D1_8 row_2_5)
     = Some "EV On-Peak".
Proof.
  split; [reflexivity|].
  rewrite (d1_8_tier row_2_5); reflexivity.
Defined.

(** X13: the tier of D1.2 for a well-formed timestamp.  Inside the summer
    window it is the summer off-peak tier in the hours 19 to 23 and 0 to 10
    and the summer on-peak tier in the hours 11 to 18; inside the winter
    window likewise with the winter tiers; outside both windows there is
    none. *)
Theorem d1_2_tier row :
  Arrow.valid (Timestamp row) = true ->
  PlanRate.name <$> fst (PricePlan.match_rate plan_D1_2 row)
  = (let h := Arrow.hour (Timestamp row) in
     let off_peak := (19 <=? h) || (h <=? 10) in
     if summer_days row
     then Some (if off_peak then "Time-of-Day Summer Off-Peak"
                else "Time-of-Day Summer On-Peak")
     else if winter_days row
          then Some (if off_peak then "Time-of-Day Winter Off-Peak"
                     else "Time-of-Day Winter On-Peak")
          else None).
Proof. apply d1_2_tier_name. Qed.

Lemma d1_2_tier_witness :
  Arrow.valid (Timestamp row_2_5) = true
  /\ PlanRate.name <$> fst (PricePlan.match_rate plan_D1_2 row_2_5)
     = Some "Time-of-Day Summer On-Peak".
Proof.
  split; [reflexivity|].
  rewrite (d1_2_tier row_2_5); reflexivity.
Defined.

End Tiers.

Section Exclusive.

(** Two hour windows that share no hour never hold together. *)
Lemma hour_windows_apart a1 b1 a2 b2 row :
  Arrow.valid (Timestamp row) = true ->
  b1 < a2 \/ b2 < a1 ->
  hour_between a1 b1 row && hour_between a2 b2 row = false.
Proof.
  intros Hv Hapart. rewrite !(hour_between_hours _ _ row Hv).
  apply not_true_iff_false. rewrite !andb_true_iff, !Z.leb_le. lia.
Qed.

Lemma weekdays_or_weekend row :
  weekday_between 5 6 row = negb (weekday_between 0 4 row).
Proof.
  pose proof (weekday_bounds (Timestamp row)) as Hw. unfold weekday_between.
  apply eq_true_iff_eq.
  rewrite negb_true_iff, <- not_true_iff_false, !andb_true_iff, !Z.leb_le. lia.
Qed.

Lemma summer_or_winter row :
  Arrow.valid (Timestamp row) = true ->
  summer_days row && winter_days row = false.
Proof.
  intros Hv. rewrite (summer_days_formula row Hv), (winter_days_formula row Hv).
  apply not_true_iff_false.
  repeat (rewrite orb_true_iff || rewrite andb_true_iff).
  rewrite !Z.leb_le, !Z.eqb_eq. lia.
Qed.

End Exclusive.

(** X14: in each configured plan the tiers exclude one another: for a reading
    with a well-formed timestamp at most one tier applies, so the order in
    which the tiers are declared does not decide any reading. *)
Theorem configured_tiers_exclusive row :
  Arrow.valid (Timestamp row) = true ->
  Forall (fun plan =>
            (length (List.filter (fun rate => fst (PlanRate.is_rate rate row false))
                                 (PricePlan.rates plan)) <= 1)%nat) plans.
Proof.
  intros Hv. unfold plans.
  repeat (apply List.Forall_cons); [| | | |apply List.Forall_nil].
  all: cbn [PricePlan.rates plan_D1 plan_D1_2 plan_D1_9 plan_D1_8 List.filter];
    rewrite !rate_is_rate_quiet;
    cbn [fst PlanRate.conditions forallb RateCondition.match_
         cond_summer cond_winter cond_off_peak cond_on_peak cond_weekdays cond_weekend].
  - rewrite le_17_or_gt_17. destruct (le_17 row); simpl; lia.
  - pose proof (summer_or_winter row Hv) as Hseason.
    pose proof (hour_windows_apart 19 23 11 18 row Hv ltac:(lia)) as H1.
    pose proof (hour_windows_apart 0 10 11 18 row Hv ltac:(lia)) as H2.
    unfold off_peak_hours.
    destruct (summer_days row), (winter_days row), (hour_between 19 23 row),
      (hour_between 0 10 row), (hour_between 11 18 row); try discriminate;
      simpl; lia.
  - pose proof (hour_windows_apart 19 22 15 18 row Hv ltac:(lia)) as H1.
    pose proof (hour_windows_apart 7 14 15 18 row Hv ltac:(lia)) as H2.
    pose proof (hour_windows_apart 19 22 23 23 row Hv ltac:(lia)) as H3.
    pose proof (hour_windows_apart 19 22 0 6 row Hv ltac:(lia)) as H4.
    pose proof (hour_windows_apart 7 14 23 23 row Hv ltac:(lia)) as H5.
    pose proof (hour_windows_apart 7 14 0 6 row Hv ltac:(lia)) as H6.
    pose proof (hour_windows_apart 15 18 23 23 row Hv ltac:(lia)) as H7.
    pose proof (hour_windows_apart 15 18 0 6 row Hv ltac:(lia)) as H8.
    rewrite (weekdays_or_weekend row).
    destruct (weekday_between 0 4 row), (hour_between 19 22 row),
      (hour_between 7 14 row), (hour_between 15 18 row),
      (hour_between 23 23 row), (hour_between 0 6 row); try discriminate;
      simpl; lia.
  - pose proof (hour_windows_apart 9 22 23 23 row Hv ltac:(lia)) as H1.
    pose proof (hour_windows_apart 9 22 0 8 row Hv ltac:(lia)) as H2.
    rewrite (weekdays_or_weekend row).
    destruct (weekday_between 0 4 row), (hour_between 9 22 row),
      (hour_between 23 23 row), (hour_between 0 8 row); try discriminate;
      simpl; lia.
Qed.

Lemma configured_tiers_exclusive_witness :
  Arrow.valid (Timestamp row_2_5) = true
  /\ Forall (fun plan =>
               (length (List.filter (fun rate => fst (PlanRate.is_rate rate row_2_5 false))
                                    (PricePlan.rates plan)) <= 1)%nat) plans.
Proof.
  split; [reflexivity|].
  apply (configured_tiers_exclusive row_2_5). reflexivity.
Defined.

(** ** What the methods print *)

Section Printing.

Lemma all_conditions_debug conds row :
  PlanRate.all_conditions conds row true
  = (forallb (fun c => RateCondition.match_ c row) conds,
     match first_failing conds row with
     | Some c => [NoMatchFor (RateCondition.key c) (RateCondition.condition c)]
     | None => []
     end).
Proof.
  induction conds as [|c rest IH]; [done|].
  cbn [PlanRate.all_conditions first_failing forallb].
  rewrite condition_is_rate. unfold bind.
  destruct (RateCondition.match_ c row); cbn [andb negb]; [|done].
  by rewrite IH.
Qed.

Lemma first_failing_some conds row c :
  first_failing conds row = Some c ->
  In c conds /\ RateCondition.match_ c row = false.
Proof.
  induction conds as [|c0 rest IH]; simpl; [done|].
  destruct (RateCondition.match_ c0 row) eqn:Hc0.
  - intros H. destruct (IH H). auto.
  - intros [= <-]. auto.
Qed.

Lemma first_failing_exists conds row :
  forallb (fun c => RateCondition.match_ c row) conds = false ->
  exists c, first_failing conds row = Some c.
Proof.
  induction conds as [|c0 rest IH]; simpl; [done|].
  destruct (RateCondition.match_ c0 row); simpl; [exact IH | by eexists].
Qed.

(** When no tier applies, the second loop prints one line per tier. *)
Lemma explain_failing rs row :
  Forall (fun rate => fst (PlanRate.is_rate rate row false) = false) rs ->
  exists failing,
    Forall2 (fun rate c => first_failing (PlanRate.conditions rate) row = Some c)
            rs failing
    /\ snd (PricePlan.explain rs row)
       = map (fun c => NoMatchFor (RateCondition.key c) (RateCondition.condition c))
             failing.
Proof.
  induction 1 as [|rate rest Hrate _ (failing & Hall & Hout)].
  - exists []. split; [constructor | done].
  - rewrite rate_is_rate_quiet in Hrate. simpl in Hrate.
    destruct (first_failing_exists _ _ Hrate) as [c Hc].
    exists (c :: failing). split; [by constructor|].
    cbn [PricePlan.explain]. rewrite bind_snd. unfold PlanRate.is_rate.
    rewrite all_conditions_debug, Hc, Hout. done.
Qed.

Lemma first_rate_none rs row :
  fst (PricePlan.first_rate rs row) = None ->
  Forall (fun rate => fst (PlanRate.is_rate rate row false) = false) rs.
Proof.
  intros H. pose proof (first_rate_spec rs row) as Hspec. by rewrite H in Hspec.
Qed.

Lemma rate_cost_quiet rate row : snd (PlanRate.cost rate row) = [].
Proof.
  unfold PlanRate.cost. rewrite bind_snd, rate_is_rate_quiet. simpl.
  by destruct (forallb _ _).
Qed.

End Printing.

(** X15: [PlanRate.is_rate] is the AND of the conditions of the tier whatever
    the debug flag; without the flag it prints nothing, with it it prints
    one line, for the first condition that fails, and nothing for the
    conditions after it. *)
Theorem is_rate_value_and_output rate row debug :
  PlanRate.is_rate rate row debug
  = (forallb (fun c => RateCondition.match_ c row) (PlanRate.conditions rate),
     if debug
     then match first_failing (PlanRate.conditions rate) row with
          | Some c => [NoMatchFor (RateCondition.key c) (RateCondition.condition c)]
          | None => []
          end
     else []).
Proof.
  destruct debug.
  - apply all_conditions_debug.
  - apply rate_is_rate_quiet.
Qed.

(** X16: when no tier of a plan applies, [match_rate] prints the line naming
    the plan and the row, then exactly one line per tier, in declared order:
    the first condition of that tier that fails for the row. *)
Theorem match_rate_diagnostics plan row :
  fst (PricePlan.match_rate plan row) = None ->
  exists failing,
    Forall2 (fun rate c =>
               first_failing (PlanRate.conditions rate) row = Some c
               /\ In c (PlanRate.conditions rate)
               /\ RateCondition.match_ c row = false)
            (PricePlan.rates plan) failing
    /\ snd (PricePlan.match_rate plan row)
       = CouldNotFindRate (PricePlan.name plan) row
         :: map (fun c => NoMatchFor (RateCondition.key c) (RateCondition.condition c))
                failing.
Proof.
  intros Hnone. rewrite (match_rate_none _ _ Hnone). cbn [snd].
  rewrite match_rate_fst in Hnone. apply first_rate_none in Hnone.
  destruct (explain_failing _ _ Hnone) as (failing & Hall & Hout).
  exists failing. split; [|by rewrite Hout].
  eapply Forall2_impl; [exact Hall|].
  intros rate c Hc. split; [done|]. by apply first_failing_some.
Qed.

Lemma match_rate_diagnostics_witness :
  fst (PricePlan.match_rate plan_D1_2 march_row) = None
  /\ exists failing,
       Forall2 (fun rate c =>
                  first_failing (PlanRate.conditions rate) march_row = Some c
                  /\ In c (PlanRate.conditions rate)
                  /\ RateCondition.match_ c march_row = false)
               (PricePlan.rates plan_D1_2) failing
       /\ snd (PricePlan.match_rate plan_D1_2 march_row)
          = CouldNotFindRate (PricePlan.name plan_D1_2) march_row
            :: map (fun c => NoMatchFor (RateCondition.key c) (RateCondition.condition c))
                   failing.
Proof.
  split; [reflexivity|].
  apply (match_rate_diagnostics plan_D1_2 march_row). reflexivity.
Defined.

(** X17: [PricePlan.cost] is the cost of the tier [match_rate] returns, and
    then prints nothing; when there is none it is [Decimal('0.0')], and
    what [match_rate] printed is all it prints. *)
Theorem plan_cost_by_match plan row :
  PricePlan.cost plan row
  = match fst (PricePlan.match_rate plan row) with
    | Some rate => (fst (PlanRate.cost rate row), [])
    | None => (zero, snd (PricePlan.match_rate plan row))
    end.
Proof.
  destruct (fst (PricePlan.match_rate plan row)) as [rate|] eqn:Hrate.
  - rewrite (plan_cost_some _ _ _ Hrate).
    rewrite (out_eta (PlanRate.cost rate row)). by rewrite rate_cost_quiet.
  - rewrite (out_eta (PricePlan.cost plan row)), (plan_cost_none _ _ Hrate).
    f_equal. unfold PricePlan.cost. rewrite bind_snd, Hrate. simpl.
    by rewrite app_nil_r.
Qed.

(** ** Runs of the script *)

Section Runs.












End Runs.



Section Rows.

Lemma meter_loop_readings ps rs : forall ts day_tally rows,
  fst (meter_loop ps ts day_tally rs) = Ok rows -> map reading_of rows = rs.
Proof.
  induction rs as [|r rest IH]; intros ts day_tally rows.
  - by intros [= <-].
  - cbn [meter_loop]. destruct (next_tally ts day_tally r) as [ts1 cumulative].
    rewrite pbind_fst.
    destruct (fst (annotate_all ps _)) as [row1|e] eqn:Hrow; [|done].
    rewrite pbind_fst.
    destruct (fst (meter_loop ps ts1 cumulative rest)) as [rows1|e] eqn:Hrest; [|done].
    simpl. intros [= <-]. simpl. f_equal.
    + apply annotate_all_same_reading in Hrow as [cols ->]. by destruct r.
    + by apply (IH ts1 cumulative).
Qed.

Lemma process_all_rows ps gs : forall out,
  fst (process_all ps gs) = Ok out ->
  map (map reading_of) out = gs
  /\ map (map Daily_Cumulative) out = map daily_cumulative gs.
Proof.
  induction gs as [|g rest IH]; intros out.
  - by intros [= <-].
  - cbn [process_all]. rewrite pbind_fst.
    destruct (fst (process_meter ps g)) as [rows|e] eqn:Hrows; [|done].
    rewrite pbind_fst.
    destruct (fst (process_all ps rest)) as [others|e] eqn:Hothers; [|done].
    simpl. intros [= <-]. destruct (IH others eq_refl) as [Hreadings Htally].
    simpl. rewrite Hreadings, Htally.
    destruct g as [|first more]; [done|]. unfold process_meter in Hrows.
    split; f_equal.
    + by apply meter_loop_readings in Hrows.
    + by apply meter_loop_cumulative in Hrows.
Qed.

Lemma annotate_columns plan row row1 :
  fst (annotate plan row) = Ok row1 ->
  exists v1 v2,
    columns row1
    = <[PricePlan.name plan +:+ " Cost" := v2]>
        (<[PricePlan.name plan +:+ " Rate" := v1]> (columns row)).
Proof.
  unfold annotate. rewrite pbind_fst. cbn [lift fst].
  destruct (fst (PricePlan.match_rate plan row)) as [rate|];
    rewrite pbind_fst; cbn [ok raise fst]; [|done].
  rewrite pbind_fst. cbn [lift ok fst]. intros [= <-]. by eexists _, _.
Qed.

Lemma annotate_all_keys ps : forall row row1,
  fst (annotate_all ps row) = Ok row1 ->
  forall key,
    is_Some (columns row1 !! key)
    <-> is_Some (columns row !! key) \/ In key (column_keys ps).
Proof.
  induction ps as [|plan rest IH]; intros row row1.
  - intros [= <-] key. simpl. tauto.
  - cbn [annotate_all]. rewrite pbind_fst.
    destruct (fst (annotate plan row)) as [row2|e] eqn:Hplan; [|done].
    intros Hrest key. rewrite (IH _ _ Hrest key).
    apply annotate_columns in Hplan as (v1 & v2 & ->).
    rewrite !lookup_insert_is_Some. simpl.
    destruct (decide (PricePlan.name plan +:+ " Cost" = key)),
             (decide (PricePlan.name plan +:+ " Rate" = key)); tauto.
Qed.

Lemma meter_loop_keys ps rs : forall ts day_tally rows,
  fst (meter_loop ps ts day_tally rs) = Ok rows ->
  Forall (fun row => forall key,
            is_Some (columns row !! key) <-> In key (column_keys ps)) rows.
Proof.
  induction rs as [|r rest IH]; intros ts day_tally rows.
  - intros [= <-]. constructor.
  - cbn [meter_loop]. destruct (next_tally ts day_tally r) as [ts1 cumulative].
    rewrite pbind_fst.
    destruct (fst (annotate_all ps _)) as [row1|e] eqn:Hrow; [|done].
    rewrite pbind_fst.
    destruct (fst (meter_loop ps ts1 cumulative rest)) as [rows1|e] eqn:Hrest; [|done].
    simpl. intros [= <-]. constructor; [|by apply (IH ts1 cumulative)].
    intros key. rewrite (annotate_all_keys _ _ _ Hrow key). cbn [columns].
    rewrite lookup_empty. split; [intros [[? [=]]|?]; done | auto].
Qed.

Lemma process_all_keys ps gs : forall out,
  fst (process_all ps gs) = Ok out ->
  Forall (fun row => forall key,
            is_Some (columns row !! key) <-> In key (column_keys ps)) (concat out).
Proof.
  induction gs as [|g rest IH]; intros out.
  - intros [= <-]. constructor.
  - cbn [process_all]. rewrite pbind_fst.
    destruct (fst (process_meter ps g)) as [rows|e] eqn:Hrows; [|done].
    rewrite pbind_fst.
    destruct (fst (process_all ps rest)) as [others|e] eqn:Hothers; [|done].
    simpl. intros [= <-]. simpl. apply Forall_app. split; [|by apply IH].
    destruct g as [|first more]; [done|]. by apply meter_loop_keys in Hrows.
Qed.

End Rows.

(** X19: a run that completes returns, meter by meter, one row per reading:
    the rows of a meter are its readings in sorted order, each with the
    cumulative value of the daily tally over that sorted list, and all the
    rows together are the input readings, each once. *)
Theorem run_rows ps rs :
  match fst (run ps rs) with
  | Ok out =>
      map (map reading_of) out = map sorted_by_timestamp (groups (load rs))
      /\ map (map Daily_Cumulative) out
         = map (fun g => daily_cumulative (sorted_by_timestamp g)) (groups (load rs))
      /\ Permutation (map reading_of (concat out)) rs
  | Raise _ => True
  end.
Proof.
  destruct (fst (run ps rs)) as [out|e] eqn:Hout; [|exact I].
  apply process_all_rows in Hout as [Hreadings Htally].
  split; [exact Hreadings|]. split; [by rewrite Htally, map_map|].
  rewrite concat_map, Hreadings.
  etransitivity; [|apply load_keeps_readings_perm].
  clear. induction (groups (load rs)) as [|g rest IH]; simpl; [done|].
  apply Permutation_app; [|exact IH].
  induction g as [|r more IHg]; simpl; [done|].
  by rewrite insert_sorted_perm, IHg.
Qed.

(** X20: in a run that completes, the plan columns of every row are exactly
    the rate and the cost column of each plan, and all of them are among
    the field names the writer is given. *)
Theorem run_columns ps rs :
  (forall key, In key (column_keys ps) -> In key (fieldnames ps))
  /\ match fst (run ps rs) with
     | Ok out =>
         Forall (fun row => forall key,
                   is_Some (columns row !! key) <-> In key (column_keys ps))
                (concat out)
     | Raise _ => True
     end.
Proof.
  split.
  - intros key Hkey. unfold fieldnames. apply in_or_app. by right.
  - destruct (fst (run ps rs)) as [out|e] eqn:Hout; [|exact I].
    by apply process_all_keys in Hout.
Qed.

(** ** When a run of the configured plans completes *)

Section Completion.








End Completion.



(** ** Costs of the configured tiers *)

Section Costs.




End Costs.



(** ** The hour and weekday conditions *)

(** X23: every hour window the plans build with [replace(hour=h1)] and
    [replace(hour=h2).ceil('hour')] holds, for a well-formed timestamp,
    exactly when the hour of the reading is from [h1] to [h2], both
    included, whatever its minutes and seconds. *)
Theorem hour_window_inclusive h1 h2 row :
  Arrow.valid (Timestamp row) = true ->
  hour_between h1 h2 row
  = (h1 <=? Arrow.hour (Timestamp row)) && (Arrow.hour (Timestamp row) <=? h2).
Proof. apply hour_between_hours. Qed.

Lemma hour_window_inclusive_witness :
  Arrow.valid (Timestamp row_2_5) = true
  /\ hour_between 11 18 row_2_5 = true.
Proof.
  split; [reflexivity|].
  rewrite (hour_window_inclusive 11 18 row_2_5); reflexivity.
Defined.

(** X24: the weekday and the weekend condition split the readings: for every
    timestamp exactly one of "Monday <= day <= Friday" and "Saturday <= day
    <= Sunday" holds. *)
Theorem weekday_or_weekend row :
  weekday_between 5 6 row = negb (weekday_between 0 4 row).
Proof. apply weekdays_or_weekend. Qed.
